(** * CORD-19 metadata pipeline: batch report (Week8.py) and explorer (app.py)

    A shallow embedding of the two entry points of the repository and the
    properties their specification states about them.  The pandas objects
    the scripts manipulate are modelled as values:

    - a cell of a frame is null, a string, a number or a timestamp;
    - a record (one row) is a finite map from column names to cells;
    - a frame is its ordered column names together with its ordered rows.

    A [string] stands for a Python [str] whose code points are all below
    256: each character is one code point (not a byte of an encoding),
    so [String.length] is Python's [len].  Text with code points from 256
    on is outside the model.  A number cell is an integer.

    Library calls whose results depend on code outside the repository
    (the tolerant date parser behind [pd.to_datetime], the tokenizer of
    [WordCloud], the CSV codec, the order in which pandas leaves equal
    counts) are parameters of the development. *)

From Stdlib Require Import ZArith Lia Ascii.
From stdpp Require Import base option list strings gmap fin_maps sorting pretty.

Open Scope string_scope.
Open Scope Z_scope.

#[local] Set Warnings "-clear-no-such-hyp".

(** ** Values *)

(** A parsed [pandas.Timestamp], reduced to its calendar date. *)
Record Timestamp := mkTimestamp { ts_year : Z; ts_month : Z; ts_day : Z }.

#[global] Instance Timestamp_eq_dec : EqDecision Timestamp.
Proof. solve_decision. Defined.

(** One cell of a frame.  [NA] stands for every pandas null: [NaN], [NaT],
    [pd.NA] and [None]. *)
Inductive cell :=
| NA
| Str (s : string)
| Num (z : Z)
| Time (t : Timestamp).

#[global] Instance cell_eq_dec : EqDecision cell.
Proof. solve_decision. Defined.

(** The Python exceptions the two scripts can meet. *)
Inductive exn :=
| KeyError (key : string)
| TypeError
| ValueError
| AttributeError
| FileNotFoundError
| OSError
| NameError
| SystemExit.

Inductive result (A : Type) :=
| Ok (a : A)
| Raise (e : exn).
Arguments Ok {A} a.
Arguments Raise {A} e.

#[global] Instance result_ret : MRet result := λ A a, Ok a.
#[global] Instance result_bind : MBind result := λ A B f m,
  match m with
  | Ok a => f a
  | Raise e => Raise e
  end.

Abbreviation Row := (gmap string cell).
Abbreviation Series := (list cell).

(** ** Frames *)

Record DataFrame := mkFrame { columns : list string; rows : list Row }.

(** [df[c]]: the column as a series, [KeyError] when there is no such
    column.  A cell the row does not hold reads as null. *)
Definition column (df : DataFrame) (c : string) : Series :=
  map (λ r : Row, default NA (r !! c)) (rows df).

Definition getitem (df : DataFrame) (c : string) : result Series :=
  if decide (c ∈ columns df) then Ok (column df c) else Raise (KeyError c).

Definition with_column (c : string) (cs : list string) : list string :=
  if decide (c ∈ cs) then cs else cs ++ [c].

(** [df[c] = s] for a series [s] computed from [df] itself: an existing
    column is replaced in place, a new one is appended last. *)
Definition setitem (df : DataFrame) (c : string) (s : Series) : DataFrame :=
  {| columns := with_column c (columns df);
     rows := zip_with (λ (r : Row) v, <[c := v]> r) (rows df) s |}.

(** [df[c] = v] for a scalar [v], broadcast to every row. *)
Definition setitem_scalar (df : DataFrame) (c : string) (v : cell) : DataFrame :=
  {| columns := with_column c (columns df);
     rows := map (λ r : Row, <[c := v]> r) (rows df) |}.

(** [df.drop(columns=cs, errors='ignore')]. *)
Definition drop (df : DataFrame) (cs : list string) : DataFrame :=
  {| columns := filter (λ c, c ∉ cs) (columns df);
     rows := map (λ r : Row, foldr delete r cs) (rows df) |}.

(** Selection of the positions a boolean mask marks. *)
Fixpoint take_where {A} (m : list bool) (l : list A) : list A :=
  match m, l with
  | b :: m', x :: l' => if b then x :: take_where m' l' else take_where m' l'
  | _, _ => []
  end.

(** [df[mask]] for a boolean series computed from [df] itself. *)
Definition getitem_mask (df : DataFrame) (m : list bool) : DataFrame :=
  {| columns := columns df; rows := take_where m (rows df) |}.

(** [s.fillna(v)]. *)
Definition fillna (v : cell) (s : Series) : Series :=
  map (λ c, match c with NA => v | _ => c end) s.

(** [s.dropna()]. *)
Definition dropna (s : Series) : Series :=
  filter (λ c, c ≠ NA) s.

(** [s.notna().any()]. *)
Definition notna_any (s : Series) : bool :=
  bool_decide (dropna s ≠ []).

Fixpoint mapR {A B} (f : A → result B) (l : list A) : result (list B) :=
  match l with
  | [] => Ok []
  | x :: l' => y ← f x; ys ← mapR f l'; Ok (y :: ys)
  end.

(** ** Strings *)

(** Python's [str.isspace] on a code point below 256: U+0009..U+000D,
    U+001C..U+0020, U+0085 and U+00A0. *)
Definition is_space (a : ascii) : bool :=
  let n := nat_of_ascii a in
  ((9 <=? n)%nat && (n <=? 13)%nat) || ((28 <=? n)%nat && (n <=? 32)%nat)
  || (n =? 133)%nat || (n =? 160)%nat.

Definition flush (cur : string) : list string :=
  match cur with
  | EmptyString => []
  | _ => [cur]
  end.

Fixpoint split_from (cur : string) (s : string) : list string :=
  match s with
  | EmptyString => flush cur
  | String a s' =>
      if is_space a then flush cur ++ split_from EmptyString s'
      else split_from (cur +:+ String a EmptyString) s'
  end.

(** [s.split()]: the maximal runs of non-space characters. *)
Definition py_split (s : string) : list string := split_from EmptyString s.

Definition pad2 (z : Z) : string :=
  if decide (z < 10) then "0" +:+ pretty z else pretty z.

(** [str(x)] (and [astype(str)]) on a cell.  A number cell holds an
    integer and prints in decimal. *)
Definition py_str (c : cell) : string :=
  match c with
  | NA => "nan"
  | Str s => s
  | Num z => pretty z
  | Time t =>
      pretty (ts_year t) +:+ "-" +:+ pad2 (ts_month t) +:+ "-" +:+
      pad2 (ts_day t) +:+ " 00:00:00"
  end.

(** Python's lower-casing of a code point below 256: A..Z and the
    capital letters U+00C0..U+00DE (all but the sign U+00D7) move up by
    32, everything else stays. *)
Definition lower_char (a : ascii) : ascii :=
  let n := nat_of_ascii a in
  if ((65 <=? n)%nat && (n <=? 90)%nat)
     || ((192 <=? n)%nat && (n <=? 222)%nat && negb (n =? 215)%nat)
  then ascii_of_nat (n + 32) else a.

(** [s.lower()]. *)
Fixpoint py_lower (s : string) : string :=
  match s with
  | EmptyString => EmptyString
  | String a s' => String (lower_char a) (py_lower s')
  end.

(** [sep.join(l)]. *)
Fixpoint py_join (sep : string) (l : list string) : string :=
  match l with
  | [] => EmptyString
  | [x] => x
  | x :: l' => x +:+ sep +:+ py_join sep l'
  end.

Fixpoint lstrip (s : string) : string :=
  match s with
  | EmptyString => EmptyString
  | String a s' => if is_space a then lstrip s' else s
  end.

Fixpoint rstrip (s : string) : string :=
  match s with
  | EmptyString => EmptyString
  | String a s' =>
      match rstrip s' with
      | EmptyString => if is_space a then EmptyString else String a EmptyString
      | r => String a r
      end
  end.

(** [s.strip()]. *)
Definition py_strip (s : string) : string := rstrip (lstrip s).

Definition word_count (c : cell) : cell :=
  Num (Z.of_nat (length (py_split (py_str c)))).

(** ** Cleaning *)

Definition title_sentinel : cell := Str "No title available".
Definition abstract_sentinel : cell := Str "No abstract available".

Definition drop_cols : list string :=
  ["sha"; "license"; "pmcid"; "pubmed_id"; "arxiv_id"; "who_covidence_id";
   "has_full_text"].

(** [s.dt.year]: available on datetime-like series only. *)
Definition dt_year (s : Series) : result Series :=
  mapR (λ c, match c with
             | NA => Ok NA
             | Time t => Ok (Num (ts_year t))
             | _ => Raise AttributeError
             end) s.

Section Cleaner.
(** The scalar conversion behind [pd.to_datetime] on a non-null raw
    value; [None] when the value cannot be read as a date. *)
Variable parse_datetime : cell → option Timestamp.

(** [pd.to_datetime(s, errors='coerce')]. *)
Definition to_datetime (s : Series) : Series :=
  map (λ c, match c with
            | NA => NA
            | Time t => Time t
            | _ => from_option Time NA (parse_datetime c)
            end) s.

(** app.py, [load_data], after [pd.read_csv] has produced [df]. *)
Definition load_data (df : DataFrame) : result DataFrame :=
  t ← getitem df "title";
  let df := setitem df "title" (fillna title_sentinel t) in
  a ← getitem df "abstract";
  let df := setitem df "abstract" (fillna abstract_sentinel a) in
  df ← (if decide ("publish_time" ∈ columns df) then
          p ← getitem df "publish_time";
          let df := setitem df "publish_time" (to_datetime p) in
          p' ← getitem df "publish_time";
          y ← dt_year p';
          Ok (setitem df "year" y)
        else Ok (setitem_scalar df "year" NA));
  a' ← getitem df "abstract";
  Ok (setitem df "abstract_word_count" (map word_count a')).

(** Week8.py, "Part 2: Data Cleaning & Preparation". *)
Definition week8_clean (df : DataFrame) : result DataFrame :=
  let df := drop df drop_cols in
  a ← getitem df "abstract";
  let df := setitem df "abstract" (fillna abstract_sentinel a) in
  t ← getitem df "title";
  let df := setitem df "title" (fillna title_sentinel t) in
  p ← getitem df "publish_time";
  let df := setitem df "publish_time" (to_datetime p) in
  p' ← getitem df "publish_time";
  y ← dt_year p';
  let df := setitem df "year" y in
  a' ← getitem df "abstract";
  Ok (setitem df "abstract_word_count" (map word_count a')).
End Cleaner.

(** A date parser to run the pipeline with: it reads [YYYY-MM-DD] and
    nothing else. *)
Definition digit_of (a : ascii) : option Z :=
  let n := nat_of_ascii a in
  if ((48 <=? n)%nat && (n <=? 57)%nat) then Some (Z.of_nat n - 48) else None.

Fixpoint digits_from (acc : Z) (s : string) : option Z :=
  match s with
  | EmptyString => Some acc
  | String a s' => d ← digit_of a; digits_from (10 * acc + d) s'
  end.

Definition iso_date (c : cell) : option Timestamp :=
  match c with
  | Str s =>
      if decide (String.length s = 10%nat ∧ String.get 4 s = Some "-"%char
                 ∧ String.get 7 s = Some "-"%char) then
        y ← digits_from 0 (String.substring 0 4 s);
        m ← digits_from 0 (String.substring 5 2 s);
        d ← digits_from 0 (String.substring 8 2 s);
        if decide (1 ≤ m ≤ 12 ∧ 1 ≤ d ≤ 31) then Some (mkTimestamp y m d)
        else None
      else None
  | _ => None
  end.

(** ** Filter Engine *)

(** The sidebar's choices: the year slider and the journal multi-select. *)
Record FilterSpec := mkSpec {
  year_min : Z;
  year_max : Z;
  journal_set : list cell
}.

(** [s.between(lo, hi, inclusive="both")], that is [(s >= lo) & (s <= hi)]:
    a null compares false, a string or a timestamp cannot be compared
    with an integer. *)
Definition between (lo hi : Z) (s : Series) : result (list bool) :=
  mapR (λ c, match c with
             | NA => Ok false
             | Num z => Ok (bool_decide (lo ≤ z ≤ hi))
             | _ => Raise TypeError
             end) s.

(** [s.isin(vals)]. *)
Definition isin (vals : list cell) (s : Series) : list bool :=
  map (λ c, bool_decide (c ∈ vals)) s.

(** app.py, "Year filter". *)
Definition year_filter (df_filtered : DataFrame) (f : FilterSpec)
  : result DataFrame :=
  if decide ("year" ∈ columns df_filtered) then
    y ← getitem df_filtered "year";
    m ← between (year_min f) (year_max f) y;
    Ok (getitem_mask df_filtered m)
  else Ok df_filtered.

(** app.py, "Journal filter (if user chose any)". *)
Definition journal_filter (df_filtered : DataFrame) (f : FilterSpec)
  : result DataFrame :=
  match journal_set f with
  | [] => Ok df_filtered
  | _ =>
      j ← getitem df_filtered "journal";
      Ok (getitem_mask df_filtered (isin (journal_set f) j))
  end.

(** app.py, "Apply filters", on frames as values. *)
Definition apply_filters (df : DataFrame) (f : FilterSpec) : result DataFrame :=
  let df_filtered := df in
  df_filtered ← year_filter df_filtered f;
  journal_filter df_filtered f.

(** ** Frames as objects

    The same filter code on a store of frame objects: a variable holds a
    reference, [df.copy()] and [df[mask]] allocate a new object, and
    nothing is shared between them. *)

Definition SE (S A : Type) : Type := S → result A * S.

#[global] Instance SE_ret {S} : MRet (SE S) := λ A a s, (Ok a, s).
#[global] Instance SE_bind {S} : MBind (SE S) := λ A B f m s,
  match m s with
  | (Ok a, s') => f a s'
  | (Raise e, s') => (Raise e, s')
  end.

Definition lift {S A} (r : result A) : SE S A := λ s, (r, s).

Abbreviation heap := (gmap nat DataFrame).

Definition alloc (df : DataFrame) : SE heap nat :=
  λ h, let l := fresh (dom h) in (Ok l, <[l := df]> h).

Definition deref (l : nat) : SE heap DataFrame :=
  λ h, match h !! l with
       | Some df => (Ok df, h)
       | None => (Raise NameError, h)
       end.

Definition obj_copy (l : nat) : SE heap nat :=
  df ← deref l; alloc df.

Definition obj_columns (l : nat) : SE heap (list string) :=
  df ← deref l; mret (columns df).

Definition obj_getitem (l : nat) (c : string) : SE heap Series :=
  df ← deref l; lift (getitem df c).

Definition obj_getitem_mask (l : nat) (m : list bool) : SE heap nat :=
  df ← deref l; alloc (getitem_mask df m).

Definition year_filter_obj (df_filtered : nat) (f : FilterSpec) : SE heap nat :=
  cols ← obj_columns df_filtered;
  if decide ("year" ∈ cols) then
    y ← obj_getitem df_filtered "year";
    m ← lift (between (year_min f) (year_max f) y);
    obj_getitem_mask df_filtered m
  else mret df_filtered.

Definition journal_filter_obj (df_filtered : nat) (f : FilterSpec) : SE heap nat :=
  match journal_set f with
  | [] => mret df_filtered
  | _ =>
      j ← obj_getitem df_filtered "journal";
      obj_getitem_mask df_filtered (isin (journal_set f) j)
  end.

(** app.py, "Apply filters", on references. *)
Definition apply_filters_obj (df : nat) (f : FilterSpec) : SE heap nat :=
  df_filtered ← obj_copy df;
  df_filtered ← year_filter_obj df_filtered f;
  journal_filter_obj df_filtered f.

(** A session of the explorer: every change of the sidebar reruns the
    script against the frame [load_data] returned once; an exception ends
    that rerun, not the session. *)
Fixpoint session (df : nat) (specs : list FilterSpec) (h : heap)
  : list (result nat) * heap :=
  match specs with
  | [] => ([], h)
  | f :: specs' =>
      let '(r, h') := apply_filters_obj df f h in
      let '(rs, h'') := session df specs' h' in
      (r :: rs, h'')
  end.

(** ** Aggregator *)

Fixpoint bump {K} `{EqDecision K} (k : K) (acc : list (K * nat)) : list (K * nat) :=
  match acc with
  | [] => [(k, 1%nat)]
  | (k', c) :: acc' =>
      if decide (k = k') then (k', S c) :: acc' else (k', c) :: bump k acc'
  end.

(** Occurrence counts, keys in order of first appearance (the order of
    pandas' hash table and of [collections.Counter]). *)
Definition tally {K} `{EqDecision K} (l : list K) : list (K * nat) :=
  foldl (λ acc k, bump k acc) [] l.

Fixpoint insert_desc {K} (x : K * nat) (l : list (K * nat)) : list (K * nat) :=
  match l with
  | [] => [x]
  | y :: l' =>
      if decide (x.2 < y.2)%nat then y :: insert_desc x l' else x :: l
  end.

(** Sort by count, largest first; entries of equal count keep their
    relative order. *)
Definition sort_desc {K} (l : list (K * nat)) : list (K * nat) :=
  foldr insert_desc [] l.

(** The sort behind [Series.value_counts]: it rearranges the counted
    values so that the counts descend, and pandas says nothing on the
    order it leaves equal counts in. *)
Record TieOrder := mkTieOrder {
  sort_values : list (cell * nat) → list (cell * nat);
  sort_values_perm : ∀ l, sort_values l ≡ₚ l;
  sort_values_desc :
    ∀ l, StronglySorted (λ x y, (y.2 ≤ x.2)%nat) (sort_values l)
}.

(** An insertion sort by count, run on the counted values as [pre]
    hands them over. *)
Definition insertion_order (pre : list (cell * nat) → list (cell * nat))
    (Hpre : ∀ l, pre l ≡ₚ l) : TieOrder.
Proof.
  refine {| sort_values := λ l, sort_desc (pre l) |}.
  - abstract
      (intros l; etrans; [|apply Hpre]; generalize (pre l); intros s;
       induction s as [|x s IH]; [done|]; cbn [sort_desc foldr];
       etrans; [|apply Permutation_skip, IH];
       fold (sort_desc s); generalize (sort_desc s); intros t;
       induction t as [|y t IHt]; cbn [insert_desc]; [done|];
       case_decide; [|done];
       etrans; [apply Permutation_skip, IHt|apply Permutation_swap]).
  - abstract
      (intros l; generalize (pre l); intros s;
       induction s as [|x s IH]; [constructor|]; cbn [sort_desc foldr];
       fold (sort_desc s); revert IH; generalize (sort_desc s); intros t;
       induction t as [|y t IHt]; cbn [insert_desc]; intros Ht;
       [repeat constructor|];
       apply StronglySorted_cons in Ht as [Hy Ht];
       case_decide as Hlt;
       [ constructor; [by apply IHt|];
         assert (∀ u, Forall (λ z, (z.2 ≤ y.2)%nat) u →
                      Forall (λ z, (z.2 ≤ y.2)%nat) (insert_desc x u)) as Hin;
         [ intros u; induction u as [|a u IHu]; cbn [insert_desc]; intros Hu;
           [ constructor; [lia|done]
           | apply Forall_cons in Hu as [Ha Hu]; case_decide;
             [ constructor; [done|by apply IHu]
             | constructor; [lia|by constructor] ] ]
         | by apply Hin ]
       | constructor; [by constructor|];
         constructor; [lia|];
         eapply Forall_impl; [exact Hy|]; intros z Hz; simpl in *; lia ]).
Defined.

(** Equal counts in order of first appearance. *)
Definition stable_ties : TieOrder := insertion_order id (λ l, reflexivity l).

(** Equal counts in the reverse of that order. *)
Definition reversed_ties : TieOrder := insertion_order reverse reverse_Permutation.

(** [s.value_counts()]: nulls are left out, the values are counted in a
    hash table that keeps them in order of first appearance, and the
    counts are then sorted, largest first. *)
Definition value_counts (srt : TieOrder) (s : Series) : list (cell * nat) :=
  sort_values srt (tally (dropna s)).

(** [Counter(words).most_common(n)]. *)
Definition most_common (n : nat) (words : list string) : list (string * nat) :=
  take n (sort_desc (tally words)).

Definition cell_ltb (a b : cell) : bool :=
  match a, b with
  | Num x, Num y => bool_decide (x < y)
  | _, _ => false
  end.

Fixpoint insert_asc (x : cell * nat) (l : list (cell * nat)) : list (cell * nat) :=
  match l with
  | [] => [x]
  | y :: l' => if cell_ltb y.1 x.1 then y :: insert_asc x l' else x :: l
  end.

(** [s.sort_index()] on a numeric index. *)
Definition sort_index (l : list (cell * nat)) : list (cell * nat) :=
  foldr insert_asc [] l.

(** [df['year'].value_counts().sort_index()]. *)
Definition counts_by_year (srt : TieOrder) (df : DataFrame)
  : result (list (cell * nat)) :=
  y ← getitem df "year"; Ok (sort_index (value_counts srt y)).

(** [df['journal'].value_counts().head(n)]. *)
Definition top_journals (srt : TieOrder) (df : DataFrame) (n : nat)
  : result (list (cell * nat)) :=
  j ← getitem df "journal"; Ok (take n (value_counts srt j)).

(** [df['source_x'].value_counts().head(n)]. *)
Definition top_sources (srt : TieOrder) (df : DataFrame) (n : nat)
  : result (list (cell * nat)) :=
  s ← getitem df "source_x"; Ok (take n (value_counts srt s)).

(** [" ".join(s.dropna().astype(str).tolist()).lower()]. *)
Definition joined_lower (s : Series) : string :=
  py_lower (py_join " " (map py_str (dropna s))).

Definition all_titles (df : DataFrame) : result string :=
  t ← getitem df "title"; Ok (joined_lower t).

(** ** The world of the batch script *)

(** What a plot shows.  Drawing is left to matplotlib, seaborn and
    wordcloud; a figure is identified with the series it is drawn from. *)
Inductive figure :=
| LinePlot (data : list (cell * nat))
| BarPlot (data : list (cell * nat))
| PiePlot (data : list (cell * nat))
| CloudImage (freqs : list (string * nat)).

(** Text files by path (as lines), whether the directory [plots/] exists,
    and the images saved so far, oldest first. *)
Record World := mkWorld {
  files : gmap string (list string);
  plots_dir : bool;
  artifacts : list (string * figure)
}.

Definition set_file (path : string) (text : list string) (w : World) : World :=
  mkWorld (<[path := text]> (files w)) (plots_dir w) (artifacts w).

(** [os.path.exists(path)]. *)
Definition path_exists (path : string) : SE World bool :=
  λ w, (Ok (bool_decide (is_Some (files w !! path))), w).

(** [plt.savefig(path)] below [plots/]. *)
Definition savefig (path : string) (fig : figure) : SE World unit :=
  λ w, if plots_dir w
       then (Ok (), mkWorld (files w) (plots_dir w) (artifacts w ++ [(path, fig)]))
       else (Raise FileNotFoundError, w).

(** [try: body except Exception: handler]; [SystemExit] is not an
    [Exception] and passes through. *)
Definition try_except {S A} (body : SE S A) (handler : exn → SE S A) : SE S A :=
  λ s, match body s with
       | (Raise SystemExit, s') => (Raise SystemExit, s')
       | (Raise e, s') => handler e s'
       | (Ok a, s') => (Ok a, s')
       end.

(** [exit()]. *)
Definition py_exit {S A} : SE S A := lift (Raise SystemExit).

(** What the write of the sample file meets: nothing, an error when the
    file is opened, or an error after [k] lines went out. *)
Inductive write_fault :=
| NoFault
| FaultAtOpen
| FaultAfter (k : nat).

Definition first_chunk (n : nat) (df : DataFrame) : DataFrame :=
  mkFrame (columns df) (take n (rows df)).

Definition sample_path : string := "metadata_sample.csv".
Definition source_path : string := "metadata.csv".

Section Scripts.
(** The date parser behind [pd.to_datetime]. *)
Variable parse_datetime : cell → option Timestamp.
(** The words [WordCloud] keeps of a text (tokens found by its regular
    expression, stop words removed). *)
Variable wc_words : string → list string.
(** The CSV reader and writer of pandas on the text of a file. *)
Variable read_csv_text : list string → result DataFrame.
Variable to_csv_text : DataFrame → list string.
(** What the write of the sample meets in this run. *)
Variable fault : write_fault.
(** The order pandas leaves equal counts in. *)
Variable srt : TieOrder.

(** [pd.read_csv(path)]. *)
Definition read_csv (path : string) : SE World DataFrame :=
  λ w, match files w !! path with
       | Some text => (read_csv_text text, w)
       | None => (Raise FileNotFoundError, w)
       end.

(** [df.to_csv(path, index=False)]: the file is opened for writing, which
    empties it, and the lines follow. *)
Definition to_csv (df : DataFrame) (path : string) : SE World unit :=
  λ w, match fault with
       | NoFault => (Ok (), set_file path (to_csv_text df) w)
       | FaultAtOpen => (Raise OSError, w)
       | FaultAfter k => (Raise OSError, set_file path (take k (to_csv_text df)) w)
       end.

(** [WordCloud(max_words=n).generate(text)]: refuses a text without
    words. *)
Definition wordcloud_generate (max_words : nat) (text : string) : result figure :=
  match wc_words text with
  | [] => Raise ValueError
  | ws => Ok (CloudImage (most_common max_words ws))
  end.

(** Week8.py, step 1: trim [metadata.csv] to its first 5000 rows. *)
Definition make_sample : SE World unit :=
  e ← path_exists source_path;
  if (e : bool) then
    try_except
      (sample_df ← (df ← read_csv source_path; mret (first_chunk 5000 df));
       to_csv sample_df sample_path)
      (λ _, py_exit)
  else mret ().

(** Week8.py, step 2: load the sample. *)
Definition load_sample : SE World DataFrame :=
  e ← path_exists sample_path;
  if (e : bool) then try_except (read_csv sample_path) (λ _, py_exit)
  else py_exit.

(** Week8.py, part 3: the four aggregations, each printed and plotted. *)
Definition week8_analysis (df : DataFrame) : SE World unit :=
  year_counts ← lift (counts_by_year srt df);
  savefig "plots/publications_by_year.png" (LinePlot year_counts);;
  top ← lift (top_journals srt df 10);
  savefig "plots/top_journals.png" (BarPlot top);;
  text ← lift (all_titles df);
  let words := filter (λ w, (3 < String.length w)%nat) (py_split text) in
  let common_words := most_common 20 words in
  wordcloud ← lift (wordcloud_generate 200 text);
  savefig "plots/wordcloud_titles.png" wordcloud;;
  source_counts ← lift (top_sources srt df 10);
  savefig "plots/source_distribution.png" (PiePlot source_counts).

(** Week8.py, parts 2 and 3 on the sample as loaded. *)
Definition week8_report (df : DataFrame) : SE World unit :=
  df ← lift (week8_clean parse_datetime df);
  week8_analysis df.

(** Week8.py as a whole. *)
Definition week8_main : SE World unit :=
  make_sample;;
  df ← load_sample;
  week8_report df.

(** ** The explorer *)

(** What the page shows in one of its sections. *)
Inductive widget :=
| Pyplot (fig : figure)
| Image (fig : figure)
| Info (msg : string).

(** ['c' in df.columns and df[c].notna().any()]. *)
Definition has_values (df : DataFrame) (c : string) : result bool :=
  if decide (c ∈ columns df) then s ← getitem df c; Ok (notna_any s)
  else Ok false.

(** app.py, visualizations 1 to 4 on the filtered frame. *)
Definition explorer_views (df_filtered : DataFrame) (top_n : nat)
  : result (list widget) :=
  g1 ← has_values df_filtered "year";
  v1 ← (if (g1 : bool) then
          year_counts ← counts_by_year srt df_filtered;
          Ok (Pyplot (LinePlot year_counts))
        else Ok (Info "No valid 'year' values available for plotting."));
  g2 ← has_values df_filtered "journal";
  v2 ← (if (g2 : bool) then
          top ← top_journals srt df_filtered top_n;
          Ok (Pyplot (BarPlot top))
        else Ok (Info "No journal information available to display."));
  text ← all_titles df_filtered;
  v3 ← (if bool_decide (0 < String.length (py_strip text))%nat then
          wc ← wordcloud_generate 150 text;
          Ok (Image wc)
        else Ok (Info "No title text available to generate a word cloud."));
  g4 ← has_values df_filtered "source_x";
  v4 ← (if (g4 : bool) then
          source_counts ← top_sources srt df_filtered 10;
          Ok (Pyplot (PiePlot source_counts))
        else Ok (Info "No 'source_x' column available in this dataset sample."));
  Ok [v1; v2; v3; v4].

(** One run of app.py below the sidebar, on the frame [load_data]
    returned. *)
Definition explorer (df : DataFrame) (f : FilterSpec) (top_n : nat)
  : result (DataFrame * list widget) :=
  df_filtered ← apply_filters df f;
  views ← explorer_views df_filtered top_n;
  Ok (df_filtered, views).
End Scripts.

(** ** What the specification says, in its own words *)

(** "[year] is non-null AND [year_min <= year <= year_max]". *)
Definition year_in_range (f : FilterSpec) (r : Row) : Prop :=
  match r !! "year" with
  | Some (Num y) => year_min f ≤ y ≤ year_max f
  | _ => False
  end.

(** "[journal_set] is empty OR [journal] is in [journal_set]". *)
Definition journal_selected (f : FilterSpec) (r : Row) : Prop :=
  journal_set f = [] ∨ default NA (r !! "journal") ∈ journal_set f.

(** The inclusion rule of the Filter Engine. *)
Definition passes (f : FilterSpec) (r : Row) : Prop :=
  year_in_range f r ∧ journal_selected f r.

#[global] Instance year_in_range_dec f r : Decision (year_in_range f r).
Proof.
  unfold year_in_range. destruct (r !! "year") as [[]|]; apply _.
Defined.

#[global] Instance passes_dec f r : Decision (passes f r).
Proof. unfold passes, journal_selected. apply _. Defined.

(** Number of occurrences, and position of the first one. *)
Definition count {K} `{EqDecision K} (k : K) (l : list K) : nat :=
  length (filter (λ x, x = k) l).

Fixpoint first_pos {K} `{EqDecision K} (k : K) (l : list K) : nat :=
  match l with
  | [] => 0%nat
  | x :: l' => if decide (x = k) then 0%nat else S (first_pos k l')
  end.

(** "descending count, ties broken by first-encountered journal name in
    the input order": when [x] is listed before [y]. *)
Definition ranks_before {K} `{EqDecision K} (l : list K) (x y : K * nat) : Prop :=
  (y.2 < x.2)%nat ∨ (x.2 = y.2 ∧ (first_pos x.1 l < first_pos y.1 l)%nat).

(** The year of a cleaned record is null or a number. *)
Definition year_cell_ok (r : Row) : Prop :=
  r !! "year" = Some NA ∨ ∃ z, r !! "year" = Some (Num z).

(** A step on references [simulates] the step on values when it returns
    the same exception, or a reference to the same frame, and changes no
    object that existed.  The reference is [l] itself or a new object. *)
Definition simulates (h : heap) (l : nat) (v : result DataFrame)
    (out : result nat * heap) : Prop :=
  h ⊆ out.2
  ∧ match v with
    | Ok view =>
        ∃ l', out.1 = Ok l' ∧ out.2 !! l' = Some view
              ∧ (l' = l ∨ h !! l' = None)
    | Raise e => out.1 = Raise e
    end.

(** Higher count first; among equal counts, [E] decides. *)
Definition by_count_then {K} (E : relation (K * nat)) : relation (K * nat) :=
  λ x y, (y.2 < x.2)%nat ∨ (x.2 = y.2 ∧ E x y).

(** "descending count": when [x] may be listed before [y]. *)
Definition count_ge {K} (x y : K * nat) : Prop := (y.2 ≤ x.2)%nat.

(** A title or abstract column as the CSV reader gives it when it holds
    text: strings and nulls. *)
Definition text_or_null (c : cell) : Prop := c = NA ∨ ∃ s, c = Str s.

(** ** Sample inputs and library stand-ins *)

(** The no-break space U+00A0 and two accented letters. *)
Definition nbsp : string := String "160"%char EmptyString.
Definition capital_e_acute : string := String "201"%char EmptyString.
Definition small_e_acute : string := String "233"%char EmptyString.

(** Titles with accented letters and a no-break space, and a null. *)
Definition accented_titles : DataFrame :=
  mkFrame ["title"]
    [ {[ "title" := Str (capital_e_acute +:+ "tude virale COVID "
                         +:+ small_e_acute +:+ "t" +:+ small_e_acute) ]};
      {[ "title" := NA ]};
      {[ "title" := Str ("alpha" +:+ nbsp +:+ "beta gamma") ]} ].

(** One record whose title is a no-break space. *)
Definition blank_title : DataFrame :=
  mkFrame ["title"] [ {[ "title" := Str nbsp ]} ].


(** A sample with neither a journal nor a source column. *)
Definition raw_no_journal : DataFrame :=
  mkFrame ["title"; "abstract"; "publish_time"]
    [ {[ "title" := Str "Viral load dynamics"; "abstract" := NA;
         "publish_time" := Str "2020-03-01" ]} ].


(** A tokenizer to run the reports with: whitespace-separated words, a
    few stop words removed. *)
Definition plain_words (text : string) : list string :=
  filter (λ w, w ∉ ["the"; "of"; "and"; "a"; "in"]) (py_split text).

Fixpoint split_on_from (sep : ascii) (cur : string) (s : string) : list string :=
  match s with
  | EmptyString => [cur]
  | String a s' =>
      if decide (a = sep) then cur :: split_on_from sep EmptyString s'
      else split_on_from sep (cur +:+ String a EmptyString) s'
  end.

Definition csv_fields (line : string) : list string :=
  split_on_from ","%char EmptyString line.

(** A CSV codec to run the Sampler with: comma-separated, no quoting, an
    empty field is null. *)
Definition plain_read_csv (text : list string) : result DataFrame :=
  match text with
  | [] => Raise ValueError
  | header :: body =>
      let cols := csv_fields header in
      Ok (mkFrame cols
            (map (λ line,
                    list_to_map
                      (zip cols
                         (map (λ x, if decide (x = EmptyString) then NA else Str x)
                            (csv_fields line))))
               body))
  end.

Definition plain_to_csv (df : DataFrame) : list string :=
  py_join "," (columns df)
  :: map (λ r : Row,
            py_join ","
              (map (λ c, match r !! c with
                         | Some NA | None => EmptyString
                         | Some v => py_str v
                         end) (columns df)))
       (rows df).

(** The scenario of the specification: one raw record. *)
Definition raw_scenario : DataFrame :=
  mkFrame ["title"; "abstract"; "publish_time"; "journal"]
    [ {[ "title" := NA; "abstract" := NA;
         "publish_time" := Str "not-a-date"; "journal" := Str "J1" ]} ].

Definition clean_scenario : DataFrame :=
  mkFrame ["title"; "abstract"; "publish_time"; "journal"; "year";
           "abstract_word_count"]
    [ {[ "title" := Str "No title available";
         "abstract" := Str "No abstract available";
         "abstract_word_count" := Num 3;
         "publish_time" := NA; "year" := NA; "journal" := Str "J1" ]} ].

(** Records that only carry a journal. *)
Definition journals (l : list string) : DataFrame :=
  mkFrame ["journal"] (map (λ j, {[ "journal" := Str j ]}) l).

(** Records without a date: a journal, a title and no abstract. *)
Definition journals_titles (l : list string) : DataFrame :=
  mkFrame ["title"; "abstract"; "journal"]
    (map (λ j, {[ "title" := Str ("On " +:+ j); "abstract" := NA;
                  "journal" := Str j ]}) l).

(** A small raw sample with a sparse identifier column. *)
Definition raw_sample : DataFrame :=
  mkFrame ["sha"; "title"; "abstract"; "publish_time"; "journal"; "source_x"]
    [ {[ "sha" := Str "ab12"; "title" := Str "Viral load dynamics";
         "abstract" := Str "We measure viral load."; "publish_time" := Str "2019-11-30";
         "journal" := Str "Lancet"; "source_x" := Str "PMC" ]};
      {[ "sha" := NA; "title" := Str "Masks and transmission";
         "abstract" := NA; "publish_time" := Str "2020-03-01";
         "journal" := Str "BMJ"; "source_x" := Str "WHO" ]};
      {[ "sha" := NA; "title" := NA;
         "abstract" := Str "A second look at masks"; "publish_time" := Str "2020-07-15";
         "journal" := Str "Lancet"; "source_x" := Str "PMC" ]};
      {[ "sha" := Str "cd34"; "title" := Str "Undated preprint";
         "abstract" := Str "No date was recorded"; "publish_time" := NA;
         "journal" := NA; "source_x" := Str "Medline" ]} ].

(** A sample with a header and no record. *)
Definition empty_sample : DataFrame :=
  mkFrame ["title"; "abstract"; "publish_time"; "journal"; "source_x"] [].

(** [raw_sample] without its source column. *)
Definition raw_sample_no_source : DataFrame := drop raw_sample ["source_x"].

(** A machine with the directory [plots/] and no file yet. *)
Definition bare_world : World := mkWorld ∅ true [].

(** A machine holding a source of one record and an older sample. *)
Definition sampled_world : World :=
  mkWorld {[ source_path := ["title,abstract"; "T1,A1"];
             sample_path := ["title,abstract"; "T0,A0"] ]} true [].


(** ** The rest of Week8.py's word frequencies *)

(** [[w for w in all_titles.split() if len(w) > 3]]. *)
Definition title_words (df : DataFrame) : result (list string) :=
  text ← all_titles df;
  Ok (filter (λ w, (3 < String.length w)%nat) (py_split text)).

(** [Counter(words).most_common(20)]. *)
Definition common_words (df : DataFrame) : result (list (string * nat)) :=
  words ← title_words df; Ok (most_common 20 words).

(** The words of one title, as they reach the counter. *)
Definition words_of_title (c : cell) : list string :=
  filter (λ w, (3 < String.length w)%nat) (py_split (py_lower (py_str c))).

(** ** The rest of the explorer: sidebar, overview, preview, download *)

Section Sidebar.
(** Python's [int] on a string; [None] when it raises. *)
Variable py_int : string → option Z.




End Sidebar.

(** The options of the journal multi-select:
    [df['journal'].value_counts().head(50).index.tolist()], or nothing
    without a journal column. *)
Definition top_journal_list (srt : TieOrder) (df : DataFrame)
  : result (list cell) :=
  if decide ("journal" ∈ columns df) then
    j ← getitem df "journal"; Ok (take 50 (value_counts srt j)).*1
  else Ok [].

(** [s.nunique()]. *)
Definition nunique (s : Series) : nat := length (tally (dropna s)).

(** The three metrics of the overview: records in the sample, records
    after the filter, journals among the latter. *)
Definition overview (df df_filtered : DataFrame) : result (nat * nat * nat) :=
  unique_journals ←
    (if decide ("journal" ∈ columns df_filtered) then
       j ← getitem df_filtered "journal"; Ok (nunique j)
     else Ok 0%nat);
  Ok (length (rows df), length (rows df_filtered), unique_journals).

(** [df[cs]] for a list of column names. *)
Definition getitem_cols (df : DataFrame) (cs : list string) : result DataFrame :=
  match filter (λ c, c ∉ columns df) cs with
  | [] => Ok (mkFrame cs (map (λ r : Row, filter (λ kv, kv.1 ∈ cs) r) (rows df)))
  | c :: _ => Raise (KeyError c)
  end.

(** [df.head(n)]. *)
Definition head_rows (n : nat) (df : DataFrame) : DataFrame :=
  mkFrame (columns df) (take n (rows df)).

Definition preview_cols : list string := ["title"; "authors"; "journal"; "year"].

(** [['title','authors','journal','year'] if all(c in df.columns ...)
     else df.columns[:5]]. *)
Definition cols_to_show (df_filtered : DataFrame) : list string :=
  if decide (Forall (λ c, c ∈ columns df_filtered) preview_cols)
  then preview_cols else take 5 (columns df_filtered).

(** [st.dataframe(df_filtered[cols_to_show].head(200))]. *)
Definition data_preview (df_filtered : DataFrame) : result DataFrame :=
  v ← getitem_cols df_filtered (cols_to_show df_filtered);
  Ok (head_rows 200 v).

(** The frame behind the download button:
    [df_filtered[cols_to_show]], every filtered record. *)
Definition download_frame (df_filtered : DataFrame) : result DataFrame :=
  getitem_cols df_filtered (cols_to_show df_filtered).

(** A record has a year. *)
Definition has_year (r : Row) : Prop :=
  match r !! "year" with
  | Some (Num _) => True
  | _ => False
  end.

#[global] Instance has_year_dec r : Decision (has_year r).
Proof. unfold has_year. destruct (r !! "year") as [[]|]; apply _. Defined.

(** The year a parsed cell shows. *)
Definition year_of_cell (c : cell) : cell :=
  match c with
  | Time t => Num (ts_year t)
  | _ => NA
  end.

(** Ascending years. *)
Definition year_lt (x y : cell * nat) : Prop :=
  match x.1, y.1 with
  | Num a, Num b => a < b
  | _, _ => False
  end.

(** The cells of a column after cleaning a frame that has a publish_time
    column, by column. *)
Definition cleaned_column (parse : cell → option Timestamp) (raw : DataFrame)
    (c : string) : Series :=
  if decide (c = "abstract_word_count") then
    map word_count (fillna abstract_sentinel (column raw "abstract"))
  else if decide (c = "year") then
    map year_of_cell (to_datetime parse (column raw "publish_time"))
  else if decide (c = "publish_time") then
    to_datetime parse (column raw "publish_time")
  else if decide (c = "abstract") then
    fillna abstract_sentinel (column raw "abstract")
  else if decide (c = "title") then
    fillna title_sentinel (column raw "title")
  else column raw c.

(** One record whose title is a stop word. *)
Definition stop_word_titles : DataFrame :=
  mkFrame ["title"] [ {[ "title" := Str "The" ]} ].

(** A machine whose source is an empty file, next to an older sample. *)
Definition broken_source_world : World :=
  mkWorld {[ source_path := []; sample_path := ["title,abstract"; "T0,A0"] ]}
    true [].


(** [raw_sample] as [load_data] returns it with the parser [iso_date]:
    years 2019, 2020, 2020 and null. *)
Definition clean_sample : DataFrame :=
  Eval vm_compute in
    match load_data iso_date raw_sample with
    | Ok df => df
    | Raise _ => mkFrame [] []
    end.

(** * Properties *)

(** ** Frames and series *)

Lemma bind_Ok {A B} (m : result A) (k : A → result B) (b : B) :
  m ≫= k = Ok b → ∃ a, m = Ok a ∧ k a = Ok b.
Proof. destruct m as [a|e]; simpl; [eauto | discriminate]. Qed.

Lemma getitem_ok df c : c ∈ columns df → getitem df c = Ok (column df c).
Proof. intros H. unfold getitem. by rewrite decide_True. Qed.

Lemma getitem_inv df c s : getitem df c = Ok s → c ∈ columns df ∧ s = column df c.
Proof. unfold getitem. case_decide; [|discriminate]. by injection 1 as <-. Qed.

Lemma getitem_missing df c : c ∉ columns df → getitem df c = Raise (KeyError c).
Proof. intros H. unfold getitem. by rewrite decide_False. Qed.

Lemma length_column df c : length (column df c) = length (rows df).
Proof. unfold column. by rewrite length_map. Qed.

Lemma elem_of_with_column c c' cs : c' ∈ with_column c cs ↔ c' = c ∨ c' ∈ cs.
Proof.
  unfold with_column. case_decide; [|rewrite elem_of_app, list_elem_of_singleton];
    naive_solver.
Qed.

Lemma columns_setitem df c s c' :
  c' ∈ columns (setitem df c s) ↔ c' = c ∨ c' ∈ columns df.
Proof. apply elem_of_with_column. Qed.

Lemma columns_setitem_scalar df c v c' :
  c' ∈ columns (setitem_scalar df c v) ↔ c' = c ∨ c' ∈ columns df.
Proof. apply elem_of_with_column. Qed.

Lemma length_rows_setitem df c s :
  length s = length (rows df) → length (rows (setitem df c s)) = length (rows df).
Proof. intros H. simpl. rewrite length_zip_with. lia. Qed.

Lemma Forall_zip_with {A B C} (P : C → Prop) (f : A → B → C) l k :
  (∀ x y, x ∈ l → y ∈ k → P (f x y)) → Forall P (zip_with f l k).
Proof.
  revert k. induction l as [|x l IH]; intros [|y k] H; simpl; try constructor.
  - apply H; constructor.
  - apply IH. intros x' y' Hx Hy. apply H; by constructor.
Qed.

(** Writing a column leaves the cells of every other column alone. *)
Lemma rows_setitem_other (P : option cell → Prop) df c s c' :
  c' ≠ c →
  Forall (λ r : Row, P (r !! c')) (rows df) →
  Forall (λ r : Row, P (r !! c')) (rows (setitem df c s)).
Proof.
  intros Hne H. simpl. apply Forall_zip_with. intros r v Hr _.
  rewrite lookup_insert_ne by done. by eapply Forall_forall in H.
Qed.

(** The cells written are the ones that can be read back. *)
Lemma rows_setitem_same (P : option cell → Prop) df c s :
  Forall (λ v, P (Some v)) s →
  Forall (λ r : Row, P (r !! c)) (rows (setitem df c s)).
Proof.
  intros H. simpl. apply Forall_zip_with. intros r v _ Hv.
  rewrite lookup_insert_eq. by eapply Forall_forall in H.
Qed.

Lemma take_where_filter {A} (P : A → Prop) `{∀ x, Decision (P x)} (l : list A) :
  take_where (map (λ x, bool_decide (P x)) l) l = filter P l.
Proof.
  induction l as [|x l IH]; simpl; [done|].
  rewrite IH. destruct (decide (P x)).
  - by rewrite bool_decide_true, filter_cons_True.
  - by rewrite bool_decide_false, filter_cons_False.
Qed.

Lemma length_fillna v s : length (fillna v s) = length s.
Proof. unfold fillna. by rewrite length_map. Qed.

Lemma dt_year_to_datetime parse s :
  ∃ y, dt_year (to_datetime parse s) = Ok y ∧ length y = length s
       ∧ Forall (λ v, v = NA ∨ ∃ z, v = Num z) y.
Proof.
  induction s as [|c s (y & Hy & Hlen & Hall)].
  - exists []. by repeat split.
  - unfold dt_year in *. simpl. rewrite Hy. simpl.
    destruct c as [|str|z|t]; simpl.
    + exists (NA :: y). repeat split; simpl; auto.
    + destruct (parse (Str str)) as [t|]; simpl;
        eexists; repeat split; simpl; eauto.
    + destruct (parse (Num z)) as [t|]; simpl;
        eexists; repeat split; simpl; eauto.
    + exists (Num (ts_year t) :: y). repeat split; simpl; eauto.
Qed.

Lemma column_setitem_same df c s :
  length s = length (rows df) → column (setitem df c s) c = s.
Proof.
  unfold column. simpl. generalize (rows df). intros l. revert s.
  induction l as [|r l IH]; intros [|v s] Hlen; simpl in *; try done.
  rewrite lookup_insert_eq. simpl. f_equal. apply IH. lia.
Qed.

Lemma column_setitem_other df c s c' :
  c' ≠ c → length s = length (rows df) →
  column (setitem df c s) c' = column df c'.
Proof.
  intros Hne. unfold column. simpl. generalize (rows df). intros l. revert s.
  induction l as [|r l IH]; intros [|v s] Hlen; simpl in *; try done.
  rewrite lookup_insert_ne by done. f_equal. apply IH. lia.
Qed.

(** ** Cleaner *)

Ltac bind_inv H :=
  let s := fresh "s" in
  let Hs := fresh "Hs" in
  apply bind_Ok in H as (s & Hs & H).

Ltac getitem_inv H :=
  let s := fresh "s" in
  let Hs := fresh "Hs" in
  let Hc := fresh "Hc" in
  apply bind_Ok in H as (s & Hs & H);
  apply getitem_inv in Hs as [Hc ->].


(** The date steps shared by both scripts: parse [publish_time], derive
    [year]. *)
Lemma year_step parse df :
  "publish_time" ∈ columns df →
  let df3 := setitem df "publish_time" (to_datetime parse (column df "publish_time")) in
  ∃ y, getitem df3 "publish_time" ≫= dt_year = Ok y
       ∧ length y = length (rows df)
       ∧ length (rows df3) = length (rows df)
       ∧ Forall (λ v, v = NA ∨ ∃ z, v = Num z) y.
Proof.
  intros Hpt df3.
  assert (Hlen : length (to_datetime parse (column df "publish_time"))
                 = length (rows df)).
  { unfold to_datetime. by rewrite length_map, length_column. }
  destruct (dt_year_to_datetime parse (column df "publish_time"))
    as (y & Hy & Hylen & Hyall).
  exists y. rewrite getitem_ok by (apply columns_setitem; by left).
  unfold df3. rewrite column_setitem_same by done. simpl.
  rewrite length_column in Hylen. repeat split; try done.
  by apply length_rows_setitem.
Qed.

(** What [load_data] returns, whenever it returns. *)
Lemma load_data_inv parse raw out :
  load_data parse raw = Ok out →
  length (rows out) = length (rows raw)
  ∧ (∀ c, c ∈ columns out ↔
          c ∈ columns raw ∨ c = "year" ∨ c = "abstract_word_count")
  ∧ Forall year_cell_ok (rows out)
  ∧ ("publish_time" ∉ columns raw →
     Forall (λ r : Row, r !! "year" = Some NA) (rows out)).
Proof.
  unfold load_data. intros H.
  getitem_inv H. getitem_inv H. bind_inv H.
  getitem_inv H. injection H as <-.
  set (df1 := setitem raw "title" _) in *.
  set (df2 := setitem df1 "abstract" _) in *.
  assert (Hlen1 : length (rows df1) = length (rows raw)).
  { apply length_rows_setitem. by rewrite length_fillna, length_column. }
  assert (Hlen2 : length (rows df2) = length (rows raw)).
  { unfold df2. rewrite length_rows_setitem; [done|].
    by rewrite length_fillna, length_column. }
  assert (Hcols2 : ∀ c, c ∈ columns df2 ↔ c ∈ columns raw).
  { intros c. unfold df2, df1. rewrite !columns_setitem.
    unfold df1 in Hc0. rewrite columns_setitem in Hc0. naive_solver. }
  assert (Hs' : length (rows s) = length (rows raw)
                ∧ (∀ c, c ∈ columns s ↔ c ∈ columns raw ∨ c = "year")
                ∧ Forall year_cell_ok (rows s)
                ∧ ("publish_time" ∉ columns raw →
                   Forall (λ r : Row, r !! "year" = Some NA) (rows s))).
  { case_decide as Hpt.
    - destruct (year_step parse df2 Hpt) as (y & Hy & Hylen & Hlen3 & Hyall).
      rewrite getitem_ok in Hs by done. simpl in Hs.
      apply bind_Ok in Hy as (p' & Hp' & Hy). rewrite Hp' in Hs. simpl in Hs.
      rewrite Hy in Hs. simpl in Hs. injection Hs as <-.
      split_and!.
      + rewrite length_rows_setitem; lia.
      + intros c. rewrite !columns_setitem, Hcols2.
        apply Hcols2 in Hpt. naive_solver.
      + apply (rows_setitem_same (λ o, o = Some NA ∨ ∃ z, o = Some (Num z))).
        eapply Forall_impl; [exact Hyall|].
        intros v [->|[z ->]]; [by left|right; eauto].
      + intros Hno. by apply Hcols2 in Hpt.
    - injection Hs as <-. split_and!.
      + simpl. by rewrite length_map.
      + intros c. rewrite columns_setitem_scalar, Hcols2. naive_solver.
      + simpl. apply Forall_fmap, Forall_true. intros r. left.
        simpl. apply lookup_insert_eq.
      + intros _. simpl. apply Forall_fmap, Forall_true. intros r.
        simpl. apply lookup_insert_eq. }
  destruct Hs' as (Hlen & Hcols & Hyear & Hnull).
  split_and!.
  - rewrite length_rows_setitem; [done|].
    unfold column. by rewrite !length_map.
  - intros c. rewrite columns_setitem, Hcols. naive_solver.
  - by apply (rows_setitem_other (λ o, o = Some NA ∨ ∃ z, o = Some (Num z))).
  - intros Hno. apply (rows_setitem_other (λ o, o = Some NA)); auto.
Qed.

(** [load_data] returns on every frame that has a title and an abstract
    column. *)
Lemma load_data_total parse raw :
  "title" ∈ columns raw → "abstract" ∈ columns raw →
  ∃ out, load_data parse raw = Ok out.
Proof.
  intros Ht Ha. unfold load_data.
  rewrite getitem_ok by done. simpl.
  rewrite getitem_ok by (apply columns_setitem; by right). simpl.
  set (df2 := setitem (setitem raw "title" _) "abstract" _).
  assert (Ha2 : "abstract" ∈ columns df2) by (apply columns_setitem; by left).
  case_decide as Hpt.
  - destruct (year_step parse df2 Hpt) as (y & Hy & _).
    rewrite getitem_ok by done. simpl.
    apply bind_Ok in Hy as (p' & -> & Hy). simpl. rewrite Hy. simpl.
    rewrite getitem_ok by (apply columns_setitem; right;
                           apply columns_setitem; by right).
    simpl. eauto.
  - simpl.
    rewrite getitem_ok by (apply columns_setitem_scalar; by right).
    simpl. eauto.
Qed.

Lemma columns_drop df cs c :
  c ∈ columns (drop df cs) ↔ c ∈ columns df ∧ c ∉ cs.
Proof. simpl. rewrite list_elem_of_filter. tauto. Qed.

Lemma rows_drop df cs c :
  c ∈ cs → Forall (λ r : Row, r !! c = None) (rows (drop df cs)).
Proof.
  intros Hc. simpl. apply Forall_fmap, Forall_true. intros r. simpl.
  by apply lookup_foldr_delete.
Qed.

Lemma not_dropped c :
  c ∈ ["title"; "abstract"; "publish_time"; "year"; "abstract_word_count"] →
  c ∉ drop_cols.
Proof.
  intros Hc Hd. unfold drop_cols in Hd.
  repeat (apply elem_of_cons in Hc as [->|Hc];
          [by repeat (apply elem_of_cons in Hd as [?|Hd]; [done|]);
              apply elem_of_nil in Hd|]).
  by apply elem_of_nil in Hc.
Qed.

(** What the cleaning part of Week8.py produces, whenever it gets
    through. *)
Lemma week8_clean_inv parse raw out :
  week8_clean parse raw = Ok out →
  length (rows out) = length (rows raw)
  ∧ (∀ c, c ∈ columns out ↔
          (c ∈ columns raw ∧ c ∉ drop_cols)
          ∨ c = "year" ∨ c = "abstract_word_count")
  ∧ (∀ c, c ∈ drop_cols → Forall (λ r : Row, r !! c = None) (rows out)).
Proof.
  unfold week8_clean. intros H.
  getitem_inv H. getitem_inv H. getitem_inv H.
  set (df0 := drop raw drop_cols) in *.
  set (df1 := setitem df0 "abstract" _) in *.
  set (df2 := setitem df1 "title" _) in *.
  destruct (year_step parse df2 Hc1) as (y & Hy & Hylen & Hlen3 & _).
  apply bind_Ok in Hy as (p' & Hp' & Hy). rewrite Hp' in H. simpl in H.
  rewrite Hy in H. simpl in H.
  getitem_inv H. injection H as <-.
  set (df3 := setitem df2 "publish_time" _) in *.
  assert (Hlen0 : length (rows df0) = length (rows raw)).
  { simpl. by rewrite length_map. }
  assert (Hlen1 : length (rows df1) = length (rows raw)).
  { unfold df1. rewrite length_rows_setitem; [done|].
    by rewrite length_fillna, length_column. }
  assert (Hlen2 : length (rows df2) = length (rows raw)).
  { unfold df2. rewrite length_rows_setitem; [done|].
    by rewrite length_fillna, length_column. }
  assert (Hlen4 : length (rows (setitem df3 "year" y)) = length (rows raw)).
  { rewrite length_rows_setitem; lia. }
  split_and!.
  - rewrite length_rows_setitem; [done|]. by rewrite length_map, length_column.
  - intros c. clear -Hc Hc0 Hc1. subst df3 df2 df1 df0.
    rewrite !columns_setitem, columns_drop.
    rewrite !columns_setitem, columns_drop in Hc1.
    rewrite columns_setitem, columns_drop in Hc0.
    rewrite columns_drop in Hc. naive_solver.
  - intros c Hc'.
    assert (∀ c', c' ∈ ["title"; "abstract"; "publish_time"; "year";
                        "abstract_word_count"] → c ≠ c') as Hne.
    { intros c' Hin ->. by apply not_dropped in Hin. }
    apply (rows_setitem_other (λ o, o = None)); [apply Hne; set_solver|].
    apply (rows_setitem_other (λ o, o = None)); [apply Hne; set_solver|].
    apply (rows_setitem_other (λ o, o = None)); [apply Hne; set_solver|].
    apply (rows_setitem_other (λ o, o = None)); [apply Hne; set_solver|].
    apply (rows_setitem_other (λ o, o = None)); [apply Hne; set_solver|].
    by apply rows_drop.
Qed.

(** The cleaning part of Week8.py gets through on every frame that has
    a title, an abstract and a publish_time column. *)
Lemma week8_clean_total parse raw :
  "title" ∈ columns raw → "abstract" ∈ columns raw →
  "publish_time" ∈ columns raw →
  ∃ out, week8_clean parse raw = Ok out.
Proof.
  intros Ht Ha Hp. unfold week8_clean.
  set (df0 := drop raw drop_cols).
  assert (∀ c, c ∈ ["title"; "abstract"; "publish_time"] → c ∈ columns raw)
    as Hraw by set_solver.
  assert (∀ c, c ∈ ["title"; "abstract"; "publish_time"] → c ∈ columns df0)
    as H0.
  { intros c Hc. apply columns_drop. split; [by apply Hraw|].
    apply not_dropped. set_solver. }
  rewrite getitem_ok by (apply H0; set_solver). simpl.
  rewrite getitem_ok by (apply columns_setitem; right; apply H0; set_solver).
  simpl.
  set (df2 := setitem (setitem df0 "abstract" _) "title" _).
  assert (Hp2 : "publish_time" ∈ columns df2).
  { unfold df2. rewrite !columns_setitem. right. right. apply H0. set_solver. }
  destruct (year_step parse df2 Hp2) as (y & Hy & _).
  rewrite getitem_ok by done. simpl.
  apply bind_Ok in Hy as (p' & -> & Hy). simpl. rewrite Hy. simpl.
  rewrite getitem_ok.
  - simpl. eauto.
  - unfold df2. rewrite !columns_setitem. do 3 right. by left.
Qed.

Lemma to_datetime_ext parse1 parse2 s :
  Forall (λ c, parse1 c = parse2 c) s →
  to_datetime parse1 s = to_datetime parse2 s.
Proof.
  induction 1 as [|c s Hc _ IH]; [done|].
  unfold to_datetime in *. simpl. rewrite IH.
  destruct c; simpl; by rewrite ?Hc.
Qed.

Lemma column_drop_other df cs c :
  c ∉ cs → column (drop df cs) c = column df c.
Proof.
  intros Hc. unfold column. simpl. rewrite map_map.
  apply map_ext. intros r. by rewrite lookup_foldr_delete_not_elem_of.
Qed.

Lemma column_fill_other df c v c' :
  c' ≠ c → column (setitem df c (fillna v (column df c))) c' = column df c'.
Proof.
  intros Hne. apply column_setitem_other; [done|].
  by rewrite length_fillna, length_column.
Qed.

(** Both cleaners consult the date parser on the publish_time cells of
    the raw frame and nowhere else. *)
Lemma load_data_ext parse1 parse2 raw :
  Forall (λ c, parse1 c = parse2 c) (column raw "publish_time") →
  load_data parse1 raw = load_data parse2 raw.
Proof.
  intros Hext. unfold load_data.
  destruct (getitem raw "title") as [t|e] eqn:Ht; [|done].
  apply getitem_inv in Ht as [_ ->]. simpl.
  destruct (getitem _ "abstract") as [a|e] eqn:Ha; [|done].
  apply getitem_inv in Ha as [_ ->]. simpl.
  case_decide as Hpt; [|done].
  rewrite getitem_ok by done. simpl.
  rewrite (to_datetime_ext parse1 parse2); [done|].
  by rewrite !column_fill_other by done.
Qed.

Lemma week8_clean_ext parse1 parse2 raw :
  Forall (λ c, parse1 c = parse2 c) (column raw "publish_time") →
  week8_clean parse1 raw = week8_clean parse2 raw.
Proof.
  intros Hext. unfold week8_clean.
  destruct (getitem _ "abstract") as [a|e] eqn:Ha; [|done].
  apply getitem_inv in Ha as [_ ->]. simpl.
  destruct (getitem _ "title") as [t|e] eqn:Ht; [|done].
  apply getitem_inv in Ht as [_ ->]. simpl.
  destruct (getitem _ "publish_time") as [p|e] eqn:Hp; [|done].
  apply getitem_inv in Hp as [_ ->]. simpl.
  rewrite (to_datetime_ext parse1 parse2); [done|].
  rewrite !column_fill_other by done.
  rewrite column_drop_other; [done|]. apply not_dropped. set_solver.
Qed.

(** Week8.py converts publish_time without asking whether the column
    is there. *)
Lemma week8_clean_no_publish_time parse raw :
  "title" ∈ columns raw → "abstract" ∈ columns raw →
  "publish_time" ∉ columns raw →
  week8_clean parse raw = Raise (KeyError "publish_time").
Proof.
  intros Ht Ha Hp. unfold week8_clean.
  rewrite getitem_ok
    by (apply columns_drop; split; [done|apply not_dropped; set_solver]).
  cbn [mbind result_bind].
  rewrite getitem_ok
    by (apply columns_setitem; right; apply columns_drop;
        split; [done|apply not_dropped; set_solver]).
  cbn [mbind result_bind]. rewrite getitem_missing; [done|].
  rewrite !columns_setitem, columns_drop. naive_solver.
Qed.

(** X23. Cleaning never drops a record: on every raw frame the Cleaner
    accepts (one with a title and an abstract column, and for the batch
    script a publish_time column), the empty one included, both
    [load_data] and the cleaning part of Week8.py return a frame with
    exactly as many records as the input. *)
Theorem cleaning_keeps_every_record parse raw :
  "title" ∈ columns raw → "abstract" ∈ columns raw →
  (∃ out, load_data parse raw = Ok out
          ∧ length (rows out) = length (rows raw))
  ∧ ("publish_time" ∈ columns raw →
     ∃ out, week8_clean parse raw = Ok out
            ∧ length (rows out) = length (rows raw)).
Proof.
  intros Ht Ha. split.
  - destruct (load_data_total parse raw Ht Ha) as [out Hout].
    exists out. split; [done|]. by apply load_data_inv in Hout as (? & _).
  - intros Hp. destruct (week8_clean_total parse raw Ht Ha Hp) as [out Hout].
    exists out. split; [done|]. by apply week8_clean_inv in Hout as (? & _).
Qed.

Lemma cleaning_keeps_every_record_witness :
  "title" ∈ columns raw_sample ∧ "abstract" ∈ columns raw_sample
  ∧ (∃ out, load_data iso_date raw_sample = Ok out
            ∧ length (rows out) = length (rows raw_sample))
  ∧ ("publish_time" ∈ columns raw_sample →
     ∃ out, week8_clean iso_date raw_sample = Ok out
            ∧ length (rows out) = length (rows raw_sample)).
Proof.
  split; [|split].
  - simpl. repeat constructor.
  - simpl. repeat constructor.
  - apply (cleaning_keeps_every_record iso_date raw_sample);
      simpl; repeat constructor.
Defined.

(** C3. The scenario of the specification: a record without title and
    abstract, with the unreadable date "not-a-date" and journal "J1",
    is cleaned without any exception into the two sentinel texts, a word
    count of 3, a null publish_time, a null year and the journal "J1",
    by [load_data] and by Week8.py alike. *)
Theorem scenario_cleans parse :
  parse (Str "not-a-date") = None →
  load_data parse raw_scenario = Ok clean_scenario
  ∧ week8_clean parse raw_scenario = Ok clean_scenario.
Proof.
  intros H.
  assert (Forall (λ c, parse c = (λ _, None) c)
            (column raw_scenario "publish_time")) as Hext.
  { repeat constructor. exact H. }
  rewrite (load_data_ext _ _ _ Hext), (week8_clean_ext _ _ _ Hext).
  split; vm_compute; reflexivity.
Qed.

Lemma scenario_cleans_witness :
  iso_date (Str "not-a-date") = None
  ∧ load_data iso_date raw_scenario = Ok clean_scenario
  ∧ week8_clean iso_date raw_scenario = Ok clean_scenario.
Proof.
  split; [reflexivity | apply (scenario_cleans iso_date); reflexivity].
Defined.

(** C6 (amended). The batch pipeline drops the seven sparse identifier
    columns: none of them is a column of the frame Week8.py cleans, no
    record of it holds a cell for them, and whether the input had them or
    not plays no part in the cleaning getting through.  [load_data], the
    cleaner of the explorer, drops no column: every column of the input
    is still a column of its output. *)
Theorem sparse_columns_dropped_by_batch_only parse raw :
  "title" ∈ columns raw → "abstract" ∈ columns raw →
  "publish_time" ∈ columns raw →
  ∃ batch inter,
    week8_clean parse raw = Ok batch
    ∧ load_data parse raw = Ok inter
    ∧ (∀ c, c ∈ drop_cols →
            (c ∉ columns batch)
            ∧ Forall (λ r : Row, r !! c = None) (rows batch))
    ∧ (∀ c, c ∈ columns raw → c ∈ columns inter).
Proof.
  intros Ht Ha Hp.
  destruct (week8_clean_total parse raw Ht Ha Hp) as [batch Hb].
  destruct (load_data_total parse raw Ht Ha) as [inter Hi].
  exists batch, inter. split_and!; try done.
  - intros c Hc. apply week8_clean_inv in Hb as (_ & Hcols & Hrows).
    split; [|by apply Hrows].
    rewrite Hcols. intros [[_ Hn]|[->| ->]]; [done| |];
      revert Hc; apply not_dropped; set_solver.
  - intros c Hc. apply load_data_inv in Hi as (_ & Hcols & _).
    apply Hcols. by left.
Qed.

Lemma sparse_columns_dropped_by_batch_only_witness :
  "title" ∈ columns raw_sample ∧ "abstract" ∈ columns raw_sample
  ∧ "publish_time" ∈ columns raw_sample
  ∧ ∃ batch inter,
      week8_clean iso_date raw_sample = Ok batch
      ∧ load_data iso_date raw_sample = Ok inter
      ∧ (∀ c, c ∈ drop_cols →
              (c ∉ columns batch)
              ∧ Forall (λ r : Row, r !! c = None) (rows batch))
      ∧ (∀ c, c ∈ columns raw_sample → c ∈ columns inter).
Proof.
  split_and!; [simpl; repeat constructor..|].
  apply (sparse_columns_dropped_by_batch_only iso_date raw_sample);
    simpl; repeat constructor.
Defined.

(** C6, as stated, fails on the explorer: [load_data] keeps the column
    "sha" of the sample. *)
Lemma load_data_keeps_sha :
  ¬ (∀ raw out c,
       load_data iso_date raw = Ok out → c ∈ drop_cols → c ∉ columns out).
Proof.
  intros H.
  assert (load_data iso_date raw_sample = Ok clean_sample) as Hload
    by (vm_compute; reflexivity).
  apply (H raw_sample clean_sample "sha" Hload); vm_compute; repeat constructor.
Qed.

(** ** Filter Engine *)

Lemma between_year df f :
  Forall year_cell_ok (rows df) →
  between (year_min f) (year_max f) (column df "year")
  = Ok (map (λ r, bool_decide (year_in_range f r)) (rows df)).
Proof.
  unfold between, column. induction 1 as [|r l Hr _ IH]; [done|].
  simpl. rewrite IH.
  destruct Hr as [Hr|[z Hr]]; rewrite Hr; simpl.
  - rewrite bool_decide_false; [done|].
    intros Hc. unfold year_in_range in Hc. by rewrite Hr in Hc.
  - do 2 f_equal. apply bool_decide_ext.
    unfold year_in_range. by rewrite Hr.
Qed.

Lemma isin_journal df vals :
  isin vals (column df "journal")
  = map (λ r : Row, bool_decide (default NA (r !! "journal") ∈ vals)) (rows df).
Proof. unfold isin, column. by rewrite map_map. Qed.

(** The filter code on a cleaned frame, in closed form. *)
Lemma apply_filters_canonical df f :
  "year" ∈ columns df → Forall year_cell_ok (rows df) →
  apply_filters df f =
    if decide (journal_set f = [] ∨ "journal" ∈ columns df)
    then Ok (mkFrame (columns df) (filter (passes f) (rows df)))
    else Raise (KeyError "journal").
Proof.
  intros Hy Hok. unfold apply_filters, year_filter, journal_filter.
  rewrite decide_True by done. rewrite getitem_ok by done. simpl.
  rewrite between_year by done. simpl.
  destruct (journal_set f) as [|j js] eqn:Hjs.
  - rewrite decide_True by (by left). unfold getitem_mask.
    rewrite (take_where_filter (year_in_range f)). do 2 f_equal.
    apply list_filter_iff. intros r. unfold passes, journal_selected.
    rewrite Hjs. naive_solver.
  - case_decide as Hj.
    + destruct Hj as [?|Hj]; [done|].
      rewrite getitem_ok by done. simpl. rewrite isin_journal.
      unfold getitem_mask. simpl.
      rewrite (take_where_filter (year_in_range f)).
      rewrite (take_where_filter
                 (λ r : Row, default NA (r !! "journal") ∈ j :: js)).
      rewrite list_filter_filter. do 2 f_equal.
      apply list_filter_iff. intros r. unfold passes, journal_selected.
      rewrite Hjs. naive_solver.
    + rewrite getitem_missing; [done|]. simpl. naive_solver.
Qed.

Lemma load_data_has_year parse raw df :
  load_data parse raw = Ok df → "year" ∈ columns df.
Proof. intros H. apply load_data_inv in H as (_ & Hc & _). apply Hc. auto. Qed.

(** C1. On every cleaned frame and for every filter the sidebar can
    produce, the Filter Engine keeps exactly the records whose year is
    non-null and within the chosen range and whose journal is among the
    chosen ones when any was chosen; a record with a null year never
    gets through, and the records kept stay in their original order. *)
Theorem filter_inclusion_rule parse raw df f :
  load_data parse raw = Ok df →
  "journal" ∈ columns df ∨ journal_set f = [] →
  ∃ view,
    apply_filters df f = Ok view
    ∧ columns view = columns df
    ∧ rows view = filter (passes f) (rows df)
    ∧ (∀ r, r ∈ rows view ↔ r ∈ rows df ∧ passes f r)
    ∧ (∀ r, r ∈ rows view → ∃ y, r !! "year" = Some (Num y))
    ∧ rows view `sublist_of` rows df.
Proof.
  intros Hload Hj.
  pose proof (load_data_has_year _ _ _ Hload) as Hy.
  apply load_data_inv in Hload as (_ & _ & Hok & _).
  rewrite apply_filters_canonical by done.
  rewrite decide_True by tauto.
  eexists. split_and!; try done; simpl.
  - intros r. rewrite list_elem_of_filter. tauto.
  - intros r [[Hr _] _]%list_elem_of_filter. unfold year_in_range in Hr.
    destruct (r !! "year") as [[]|]; try done. eauto.
  - apply sublist_filter.
Qed.

Lemma filter_inclusion_rule_witness :
  load_data iso_date raw_sample = Ok clean_sample
  ∧ ("journal" ∈ columns clean_sample ∨ journal_set (mkSpec 2020 2020 []) = [])
  ∧ ∃ view,
      apply_filters clean_sample (mkSpec 2020 2020 []) = Ok view
      ∧ columns view = columns clean_sample
      ∧ rows view = filter (passes (mkSpec 2020 2020 [])) (rows clean_sample)
      ∧ (∀ r, r ∈ rows view ↔
              r ∈ rows clean_sample ∧ passes (mkSpec 2020 2020 []) r)
      ∧ (∀ r, r ∈ rows view → ∃ y, r !! "year" = Some (Num y))
      ∧ rows view `sublist_of` rows clean_sample.
Proof.
  split; [vm_compute; reflexivity|]. split; [by right|].
  apply (filter_inclusion_rule iso_date raw_sample);
    [vm_compute; reflexivity | by right].
Defined.

(** The scenario of the specification: years 2019, 2020, 2020 and null
    under the filter 2020..2020 leave the two records of 2020, in order. *)
Example filter_2020_scenario :
  ∃ view, apply_filters clean_sample (mkSpec 2020 2020 []) = Ok view
          ∧ column view "title" = [Str "Masks and transmission"; title_sentinel]
          ∧ column view "year" = [Num 2020; Num 2020].
Proof.
  eexists. split; [vm_compute; reflexivity|].
  split; vm_compute; reflexivity.
Qed.



(** ** Frames as objects: the filter has no side effect *)

Lemma alloc_run (h : heap) (df : DataFrame) :
  ∃ l, alloc df h = (Ok l, <[l := df]> h) ∧ h !! l = None.
Proof.
  exists (fresh (dom h)). split; [done|].
  apply not_elem_of_dom, is_fresh.
Qed.

Lemma heap_grow (h : heap) (l : nat) (df : DataFrame) :
  h !! l = None → h ⊆ <[l := df]> h.
Proof. apply insert_subseteq. Qed.

Lemma bind_run {S A B} (m : SE S A) (k : A → SE S B) (s : S) :
  (m ≫= k) s = match m s with
               | (Ok a, s') => k a s'
               | (Raise e, s') => (Raise e, s')
               end.
Proof. done. Qed.

Lemma obj_columns_run (h : heap) l df :
  h !! l = Some df → obj_columns l h = (Ok (columns df), h).
Proof. intros H. unfold obj_columns, deref. by rewrite bind_run, H. Qed.

Lemma obj_getitem_run (h : heap) l df c :
  h !! l = Some df → obj_getitem l c h = (getitem df c, h).
Proof. intros H. unfold obj_getitem, deref. by rewrite bind_run, H. Qed.

Lemma obj_getitem_mask_run (h : heap) l df m :
  h !! l = Some df →
  ∃ l', obj_getitem_mask l m h = (Ok l', <[l' := getitem_mask df m]> h)
        ∧ h !! l' = None.
Proof.
  intros H. unfold obj_getitem_mask, deref. rewrite bind_run, H.
  apply alloc_run.
Qed.

Lemma obj_copy_run (h : heap) l df :
  h !! l = Some df →
  ∃ l', obj_copy l h = (Ok l', <[l' := df]> h) ∧ h !! l' = None.
Proof.
  intros H. unfold obj_copy, deref. rewrite bind_run, H. apply alloc_run.
Qed.


Lemma year_filter_obj_run (h : heap) l df f :
  h !! l = Some df →
  simulates h l (year_filter df f) (year_filter_obj l f h).
Proof.
  intros Hl. unfold year_filter_obj, year_filter.
  rewrite bind_run, (obj_columns_run h l df Hl).
  case_decide.
  - rewrite bind_run, (obj_getitem_run h l df _ Hl).
    destruct (getitem df "year") as [y|e]; simpl; [|by split].
    rewrite bind_run. unfold lift.
    destruct (between (year_min f) (year_max f) y) as [m|e]; simpl;
      [|by split].
    destruct (obj_getitem_mask_run h l df m Hl) as (l' & -> & Hl').
    split; simpl; [by apply heap_grow|].
    exists l'. split_and!; [done|apply lookup_insert_eq|by right].
  - split; simpl; [done|]. exists l. split_and!; auto.
Qed.

Lemma journal_filter_obj_run (h : heap) l df f :
  h !! l = Some df →
  simulates h l (journal_filter df f) (journal_filter_obj l f h).
Proof.
  intros Hl. unfold journal_filter_obj, journal_filter.
  destruct (journal_set f) as [|j js].
  - split; simpl; [done|]. exists l. split_and!; auto.
  - rewrite bind_run, (obj_getitem_run h l df _ Hl).
    destruct (getitem df "journal") as [s|e]; simpl; [|by split].
    destruct (obj_getitem_mask_run h l df (isin (j :: js) s) Hl)
      as (l' & -> & Hl').
    split; simpl; [by apply heap_grow|].
    exists l'. split_and!; [done|apply lookup_insert_eq|by right].
Qed.

(** One rerun on references: it returns what the filter on values
    returns, in an object of its own, and changes no object that
    existed. *)
Lemma apply_filters_obj_run (h : heap) l df f :
  h !! l = Some df →
  h ⊆ (apply_filters_obj l f h).2
  ∧ match apply_filters df f with
    | Ok view =>
        ∃ l', (apply_filters_obj l f h).1 = Ok l'
              ∧ (apply_filters_obj l f h).2 !! l' = Some view
              ∧ h !! l' = None
    | Raise e => (apply_filters_obj l f h).1 = Raise e
    end.
Proof.
  intros Hl. unfold apply_filters_obj, apply_filters.
  rewrite bind_run.
  destruct (obj_copy_run h l df Hl) as (l1 & -> & Hl1).
  set (h1 := <[l1 := df]> h).
  assert (h ⊆ h1) as Hsub1 by by apply heap_grow.
  assert (h1 !! l1 = Some df) as Hh1 by apply lookup_insert_eq.
  rewrite bind_run.
  destruct (year_filter_obj_run h1 l1 df f Hh1) as [Hsub2 Hyear].
  destruct (year_filter_obj l1 f h1) as [r2 h2]. simpl in *.
  destruct (year_filter df f) as [d2|e]; simpl.
  - destruct Hyear as (l2 & -> & Hl2 & Hfresh2).
    destruct (journal_filter_obj_run h2 l2 d2 f Hl2) as [Hsub3 Hjournal].
    destruct (journal_filter_obj l2 f h2) as [r3 h3]. simpl in *.
    split; [by do 2 (etrans; [done|])|].
    assert (h !! l2 = None) as Hnew2.
    { destruct Hfresh2 as [->|?]; [done|]. by eapply lookup_weaken_None. }
    destruct (journal_filter d2 f) as [d3|e]; [|done].
    destruct Hjournal as (l3 & -> & Hl3 & Hfresh3).
    exists l3. split_and!; [done..|].
    destruct Hfresh3 as [->|?]; [done|].
    eapply lookup_weaken_None; [done|]. by etrans.
  - rewrite Hyear. split; [by etrans|done].
Qed.

Lemma session_cons df f specs (h : heap) :
  session df (f :: specs) h =
    ((apply_filters_obj df f h).1 :: (session df specs (apply_filters_obj df f h).2).1,
     (session df specs (apply_filters_obj df f h).2).2).
Proof.
  simpl. destruct (apply_filters_obj df f h) as [r h']. simpl.
  by destruct (session df specs h') as [rs h''].
Qed.

(** C8. However many times and with whatever filters the explorer is
    rerun, the frame [load_data] returned is the same object with the
    same content afterwards, no other existing object has changed, and
    every rerun produced the view the filter computes from that
    unmodified frame, in an object of its own. *)
Theorem filtering_has_no_side_effect (h : heap) l df specs :
  h !! l = Some df →
  (session l specs h).2 !! l = Some df
  ∧ h ⊆ (session l specs h).2
  ∧ Forall2
      (λ f out,
         match apply_filters df f with
         | Ok view =>
             ∃ l', out = Ok l' ∧ l' ≠ l
                   ∧ (session l specs h).2 !! l' = Some view
         | Raise e => out = Raise e
         end)
      specs (session l specs h).1.
Proof.
  intros Hl.
  assert (h ⊆ (session l specs h).2
          ∧ Forall2
              (λ f out,
                 match apply_filters df f with
                 | Ok view =>
                     ∃ l', out = Ok l' ∧ l' ≠ l
                           ∧ ∀ h', (session l specs h).2 ⊆ h' →
                                   h' !! l' = Some view
                 | Raise e => out = Raise e
                 end)
              specs (session l specs h).1) as [Hsub Hall].
  { revert h Hl. induction specs as [|f specs IH]; intros h Hl.
    - split; [done|constructor].
    - rewrite session_cons. simpl.
      destruct (apply_filters_obj_run h l df f Hl) as [Hsub1 Hone].
      set (h1 := (apply_filters_obj l f h).2) in *.
      assert (h1 !! l = Some df) as Hl1 by by eapply lookup_weaken.
      destruct (IH h1 Hl1) as [Hsub2 Hrest].
      split; [by etrans|]. constructor; [|done].
      destruct (apply_filters df f) as [view|e]; [|done].
      destruct Hone as (l' & -> & Hview & Hfresh).
      exists l'. split_and!; [done|congruence|].
      intros h' Hh'. eapply lookup_weaken; [exact Hview|]. by etrans. }
  split_and!; [by eapply lookup_weaken|done|].
  eapply Forall2_impl; [exact Hall|]. intros f out. simpl.
  destruct (apply_filters df f); [|done].
  intros (l' & -> & Hne & Hview). eauto.
Qed.

Lemma filtering_has_no_side_effect_witness :
  ({[ 0%nat := clean_sample ]} : heap) !! 0%nat = Some clean_sample
  ∧ (session 0 [mkSpec 2020 2020 []; mkSpec 2019 2020 [Str "Lancet"]]
       {[ 0%nat := clean_sample ]}).2 !! 0%nat = Some clean_sample.
Proof.
  split; [apply lookup_singleton_eq|].
  apply (filtering_has_no_side_effect {[ 0%nat := clean_sample ]} 0
           clean_sample
           [mkSpec 2020 2020 []; mkSpec 2019 2020 [Str "Lancet"]]).
  apply lookup_singleton_eq.
Defined.

(** ** Aggregator *)

Section Tally.
Close Scope string_scope.
Context {K : Type} `{EqDecision K}.
Implicit Types (k : K) (l : list K) (acc : list (K * nat)).

Lemma count_cons k x l :
  count k (x :: l) = ((if decide (x = k) then 1 else 0) + count k l)%nat.
Proof. unfold count. rewrite filter_cons. by case_decide. Qed.

Lemma count_snoc k l x :
  count k (l ++ [x]) = (count k l + if decide (x = k) then 1 else 0)%nat.
Proof.
  unfold count. rewrite filter_app, length_app, filter_cons, filter_nil.
  by case_decide.
Qed.

Lemma count_absent k l : k ∉ l → count k l = 0%nat.
Proof.
  induction l as [|x l IH]; [done|]. rewrite not_elem_of_cons, count_cons.
  intros [Hne Hl]. rewrite decide_False by done. by rewrite IH.
Qed.

Lemma first_pos_lt k l : k ∈ l → (first_pos k l < length l)%nat.
Proof.
  induction l as [|x l IH]; [by intros ?%elem_of_nil|].
  intros Hin. simpl. case_decide; [lia|].
  apply elem_of_cons in Hin as [->|Hin]; [done|]. specialize (IH Hin). lia.
Qed.

Lemma first_pos_app_l k l l' : k ∈ l → first_pos k (l ++ l') = first_pos k l.
Proof.
  induction l as [|x l IH]; [by intros ?%elem_of_nil|].
  intros Hin. simpl. case_decide; [done|].
  apply elem_of_cons in Hin as [->|Hin]; [done|]. by rewrite IH.
Qed.

Lemma first_pos_snoc_new k l : k ∉ l → first_pos k (l ++ [k]) = length l.
Proof.
  induction l as [|x l IH]; simpl.
  - by rewrite decide_True.
  - rewrite not_elem_of_cons. intros [Hne Hl].
    rewrite decide_False by done. by rewrite IH.
Qed.

(** Dropping entries does not change which of two kept keys comes
    first. *)
Lemma first_pos_filter (P : K → Prop) `{!∀ x, Decision (P x)} a b l :
  P a → P b →
  (first_pos a (filter P l) < first_pos b (filter P l))%nat →
  (first_pos a l < first_pos b l)%nat.
Proof.
  intros Ha Hb. induction l as [|x l IH]; [done|].
  rewrite filter_cons. simpl.
  destruct (decide (x = a)) as [Exa|Hxa]; destruct (decide (x = b)) as [Exb|Hxb].
  - subst. rewrite decide_True by done. simpl. rewrite !decide_True by done. lia.
  - subst. rewrite decide_True by done. simpl.
    rewrite decide_True, decide_False by done. lia.
  - subst. rewrite decide_True by done. simpl.
    rewrite decide_False, decide_True by done. lia.
  - case_decide; simpl; [rewrite !decide_False by done|]; intros;
      specialize (IH ltac:(lia)); lia.
Qed.

Lemma bump_keys k acc :
  (bump k acc).*1 = if decide (k ∈ acc.*1) then acc.*1 else acc.*1 ++ [k].
Proof.
  induction acc as [|[k' c] acc IH].
  - by rewrite decide_False by apply not_elem_of_nil.
  - cbn [bump]. destruct (decide (k = k')) as [->|Hne].
    + rewrite decide_True; [done|]. rewrite fmap_cons. constructor.
    + rewrite !fmap_cons, IH. cbn [fst]. destruct (decide (k ∈ acc.*1)).
      * rewrite decide_True; [done|]. by constructor.
      * rewrite decide_False; [done|]. rewrite not_elem_of_cons. done.
Qed.

(** One more occurrence of [k]: its count goes up by one, the others
    stay. *)
Lemma bump_counts (cnt cnt' : K → nat) k acc :
  cnt' k = S (cnt k) → (∀ k', k' ≠ k → cnt' k' = cnt k') →
  NoDup acc.*1 → (k ∉ acc.*1 → cnt k = 0%nat) →
  Forall (λ p, p.2 = cnt p.1) acc →
  Forall (λ p, p.2 = cnt' p.1) (bump k acc).
Proof.
  intros Hk Hother. induction acc as [|[k' c] acc IH]; cbn [bump].
  - intros _ H0 _. constructor; [|done]. cbn [fst snd].
    rewrite Hk, H0; [done|apply not_elem_of_nil].
  - rewrite fmap_cons, NoDup_cons, Forall_cons. cbn [fst snd].
    intros [Hnew Hnd] H0 [-> Hall].
    destruct (decide (k = k')) as [->|Hne].
    + constructor; [cbn [fst snd]; by rewrite Hk|].
      rewrite Forall_forall in Hall |- *. intros [k1 c1] Hin. cbn [fst snd].
      rewrite Hother; [by apply (Hall (k1, c1))|].
      intros ->. apply Hnew. apply list_elem_of_fmap. by exists (k', c1).
    + constructor; [cbn [fst snd]; by rewrite Hother|].
      apply IH; [done| |done].
      intros Hk'. apply H0. rewrite not_elem_of_cons. done.
Qed.

Lemma tally_snoc l k : tally (l ++ [k]) = bump k (tally l).
Proof. unfold tally. by rewrite foldl_snoc. Qed.

Lemma tally_keys l k : k ∈ (tally l).*1 ↔ k ∈ l.
Proof.
  induction l as [|x l IH] using rev_ind; [done|].
  rewrite tally_snoc, bump_keys, elem_of_app, list_elem_of_singleton.
  case_decide as Hx; [|rewrite elem_of_app, list_elem_of_singleton; tauto].
  split; [tauto|]. intros [?| ->]; [tauto|done].
Qed.

Lemma tally_NoDup l : NoDup (tally l).*1.
Proof.
  induction l as [|x l IH] using rev_ind; [constructor|].
  rewrite tally_snoc, bump_keys. case_decide as Hx; [done|].
  apply NoDup_app. split_and!; [done| |apply NoDup_singleton].
  intros k Hk ->%list_elem_of_singleton. done.
Qed.

Lemma tally_counts l : Forall (λ p, p.2 = count p.1 l) (tally l).
Proof.
  induction l as [|x l IH] using rev_ind; [constructor|].
  rewrite tally_snoc.
  apply (bump_counts (λ k, count k l) (λ k, count k (l ++ [x]))); simpl.
  - rewrite count_snoc, decide_True by done. lia.
  - intros k' Hne. rewrite count_snoc, decide_False by done. lia.
  - apply tally_NoDup.
  - rewrite tally_keys. apply count_absent.
  - done.
Qed.

(** Membership in the tally: every key of the input, once, with its
    number of occurrences. *)
Lemma elem_of_tally l k c : (k, c) ∈ tally l ↔ k ∈ l ∧ c = count k l.
Proof.
  split.
  - intros Hin. split.
    + apply tally_keys, list_elem_of_fmap. by exists (k, c).
    + pose proof (tally_counts l) as Hall.
      rewrite Forall_forall in Hall. by apply (Hall (k, c)).
  - intros [Hin ->]. apply tally_keys, list_elem_of_fmap in Hin
      as ([k' c'] & Hk & Hin). simpl in Hk. subst k'.
    pose proof (tally_counts l) as Hall. rewrite Forall_forall in Hall.
    specialize (Hall _ Hin). simpl in Hall. by rewrite <- Hall.
Qed.

Lemma StronglySorted_on {A} (R1 R2 : relation A) (l : list A) :
  (∀ x y, x ∈ l → y ∈ l → R1 x y → R2 x y) →
  StronglySorted R1 l → StronglySorted R2 l.
Proof.
  intros Himp Hs. induction Hs as [|x l Hs IH Hall]; constructor.
  - apply IH. intros a b Ha Hb. apply Himp; by constructor.
  - rewrite Forall_forall in Hall |- *. intros y Hy.
    apply Himp; [constructor|by constructor|by apply Hall].
Qed.

(** The keys of the tally are in order of first appearance. *)
Lemma tally_first_seen l :
  StronglySorted (λ a b, (first_pos a l < first_pos b l)%nat) (tally l).*1.
Proof.
  induction l as [|x l IH] using rev_ind; [constructor|].
  rewrite tally_snoc, bump_keys.
  assert (StronglySorted
            (λ a b, (first_pos a (l ++ [x]) < first_pos b (l ++ [x]))%nat)
            (tally l).*1) as Hold.
  { eapply StronglySorted_on; [|exact IH]. intros a b Ha Hb.
    rewrite !first_pos_app_l by by apply tally_keys. done. }
  case_decide as Hx; [done|].
  apply StronglySorted_app_2; [|done|repeat constructor].
  intros a b Ha ->%list_elem_of_singleton.
  rewrite tally_keys in Ha, Hx.
  rewrite first_pos_app_l, first_pos_snoc_new by done.
  by apply first_pos_lt.
Qed.

Lemma insert_desc_perm (x : K * nat) (s : list (K * nat)) :
  insert_desc x s ≡ₚ x :: s.
Proof.
  induction s as [|y s IH]; simpl; [done|].
  case_decide; [|done]. rewrite IH. apply Permutation_swap.
Qed.

Lemma sort_desc_perm (s : list (K * nat)) : sort_desc s ≡ₚ s.
Proof.
  induction s as [|x s IH]; simpl; [done|].
  by rewrite insert_desc_perm, IH.
Qed.

Lemma by_count_then_le (E : relation (K * nat)) x y :
  by_count_then E x y → (y.2 ≤ x.2)%nat.
Proof. intros [?|[? _]]; lia. Qed.

(** Inserting an entry that stood before all the others keeps it before
    those of equal count. *)
Lemma insert_desc_sorted (E : relation (K * nat)) x s :
  Forall (E x) s → StronglySorted (by_count_then E) s →
  StronglySorted (by_count_then E) (insert_desc x s).
Proof.
  induction s as [|y s IH]; simpl; intros Hx Hs.
  - repeat constructor.
  - apply Forall_cons in Hx as [Hxy Hxs].
    apply StronglySorted_cons in Hs as [Hys Hs].
    case_decide as Hlt.
    + constructor; [by apply IH|].
      rewrite insert_desc_perm. constructor; [by left|done].
    + constructor; [by constructor|].
      constructor.
      * destruct (decide (x.2 = y.2)); [by right|left; lia].
      * rewrite Forall_forall in Hys, Hxs |- *. intros z Hz.
        pose proof (by_count_then_le _ _ _ (Hys z Hz)).
        destruct (decide (x.2 = z.2)); [right; auto|left; lia].
Qed.

(** The sort is stable: a list in [E] order comes out ordered by count,
    ties in [E] order. *)
Lemma sort_desc_sorted (E : relation (K * nat)) s :
  StronglySorted E s → StronglySorted (by_count_then E) (sort_desc s).
Proof.
  induction 1 as [|x s Hs IH Hx]; simpl; [constructor|].
  apply insert_desc_sorted; [|done]. by rewrite sort_desc_perm.
Qed.
End Tally.

Lemma StronglySorted_fmap_inv {A B} (f : A → B) (R : relation B) (l : list A) :
  StronglySorted R (f <$> l) → StronglySorted (λ x y, R (f x) (f y)) l.
Proof.
  induction l as [|x l IH]; [intros _; constructor|].
  rewrite fmap_cons. intros [Hall Hs]%StronglySorted_cons.
  constructor; [by apply IH|]. rewrite Forall_fmap in Hall. exact Hall.
Qed.

Lemma elem_of_dropna (s : Series) k : k ∈ dropna s ↔ k ≠ NA ∧ k ∈ s.
Proof. unfold dropna. apply (list_elem_of_filter (λ c, c ≠ NA)). Qed.

Lemma count_dropna (s : Series) k : k ≠ NA → count k (dropna s) = count k s.
Proof.
  intros Hk. unfold count, dropna. rewrite list_filter_filter. f_equal.
  apply list_filter_iff. intros x. naive_solver.
Qed.

(** On no counted value the sort has nothing to return. *)
Lemma sort_values_nil srt : sort_values srt [] = [].
Proof. apply Permutation_nil_r, sort_values_perm. Qed.

Lemma value_counts_nil srt : value_counts srt [] = [].
Proof. apply sort_values_nil. Qed.

(** [value_counts] in full: every non-null value once, with its number
    of occurrences, the counts descending. *)
Lemma value_counts_spec srt (s : Series) :
  NoDup (value_counts srt s).*1
  ∧ (∀ k c, (k, c) ∈ value_counts srt s ↔ k ≠ NA ∧ k ∈ s ∧ c = count k s)
  ∧ StronglySorted count_ge (value_counts srt s).
Proof.
  unfold value_counts. split_and!.
  - rewrite (sort_values_perm srt). apply tally_NoDup.
  - intros k c. rewrite (sort_values_perm srt), elem_of_tally, elem_of_dropna.
    split.
    + intros [[Hk Hin] ->]. by rewrite count_dropna.
    + intros (Hk & Hin & ->). by rewrite count_dropna.
  - apply sort_values_desc.
Qed.





Example top_journals_tie :
  top_journals stable_ties (journals ["B"; "A"; "C"; "A"; "B"]) 2
  = Ok [(Str "B", 2%nat); (Str "A", 2%nat)]
  ∧ top_journals reversed_ties (journals ["B"; "A"; "C"; "A"; "B"]) 2
    = Ok [(Str "A", 2%nat); (Str "B", 2%nat)].
Proof. split; vm_compute; reflexivity. Qed.

(** ** Reports *)

Lemma lift_run {S A} (r : result A) (s : S) : lift r s = (r, s).
Proof. done. Qed.

Lemma savefig_run w path fig :
  plots_dir w = true →
  savefig path fig w
  = (Ok (), mkWorld (files w) true (artifacts w ++ [(path, fig)])).
Proof. intros H. unfold savefig. by rewrite H. Qed.

(** C9 (amended). Week8.py indexes the column source_x without checking
    that it exists: on a sample without it whose cleaning and first three
    plots get through (the other columns are there, [plots/] exists, the
    titles hold a word for the cloud), the run ends in [KeyError] at the
    source step, after the by-year, top-journals and word-cloud images
    were saved and before the fourth. *)
Theorem batch_stops_at_missing_source parse wc_words srt raw df w :
  week8_clean parse raw = Ok df →
  "journal" ∈ columns raw →
  "source_x" ∉ columns raw →
  plots_dir w = true →
  wc_words (joined_lower (column df "title")) ≠ [] →
  ∃ f1 f2 f3,
    week8_report parse wc_words srt raw w
    = (Raise (KeyError "source_x"),
       mkWorld (files w) true
         (artifacts w ++ [("plots/publications_by_year.png", f1);
                          ("plots/top_journals.png", f2);
                          ("plots/wordcloud_titles.png", f3)])).
Proof.
  intros Hclean Hj Hs Hp Hw.
  pose proof Hclean as Hinv. apply week8_clean_inv in Hinv as (_ & Hcols & _).
  assert ("year" ∈ columns df) as Hyear by (apply Hcols; auto).
  assert ("journal" ∈ columns df) as Hjournal.
  { apply Hcols. left. split; [done|]. unfold drop_cols. set_solver. }
  assert ("source_x" ∉ columns df) as Hsource.
  { rewrite Hcols. intros [[? _]|[?|?]]; done. }
  assert ("title" ∈ columns df) as Htitle.
  { unfold week8_clean in Hclean. getitem_inv Hclean. getitem_inv Hclean.
    getitem_inv Hclean. bind_inv Hclean. bind_inv Hclean.
    getitem_inv Hclean. injection Hclean as <-.
    rewrite !columns_setitem. do 3 right. by left. }
  unfold week8_report, week8_analysis.
  rewrite bind_run, lift_run, Hclean.
  rewrite bind_run, lift_run. unfold counts_by_year.
  rewrite getitem_ok by done. simpl.
  rewrite bind_run, savefig_run by done.
  rewrite bind_run, lift_run. unfold top_journals.
  rewrite getitem_ok by done. simpl.
  rewrite bind_run, savefig_run by done.
  rewrite bind_run, lift_run. unfold all_titles.
  rewrite getitem_ok by done. simpl.
  rewrite bind_run, lift_run. unfold wordcloud_generate.
  destruct (wc_words (joined_lower (column df "title"))) as [|wd wds] eqn:Hwc;
    [done|].
  rewrite bind_run, savefig_run by done.
  rewrite bind_run, lift_run. unfold top_sources.
  rewrite getitem_missing by done. simpl.
  rewrite <- !(assoc_L (++)). simpl. eauto.
Qed.

Lemma batch_stops_at_missing_source_witness :
  ∃ df,
    week8_clean iso_date raw_sample_no_source = Ok df
    ∧ "journal" ∈ columns raw_sample_no_source
    ∧ ("source_x" ∉ columns raw_sample_no_source)
    ∧ plots_dir bare_world = true
    ∧ plain_words (joined_lower (column df "title")) ≠ []
    ∧ ∃ f1 f2 f3,
        week8_report iso_date plain_words stable_ties raw_sample_no_source bare_world
        = (Raise (KeyError "source_x"),
           mkWorld (files bare_world) true
             (artifacts bare_world
                ++ [("plots/publications_by_year.png", f1);
                    ("plots/top_journals.png", f2);
                    ("plots/wordcloud_titles.png", f3)])).
Proof.
  eexists.
  assert (week8_clean iso_date raw_sample_no_source = Ok _) as Hclean
    by (vm_compute; reflexivity).
  assert ("journal" ∈ columns raw_sample_no_source) as Hj
    by (vm_compute; repeat constructor).
  assert ("source_x" ∉ columns raw_sample_no_source) as Hs.
  { vm_compute. intros H.
    repeat (apply elem_of_cons in H as [H|H]; [done|]).
    by apply elem_of_nil in H. }
  assert (plain_words
            (joined_lower
               (column
                  match week8_clean iso_date raw_sample_no_source with
                  | Ok df => df
                  | Raise _ => mkFrame [] []
                  end "title")) ≠ []) as Hw by (vm_compute; discriminate).
  split_and!; [exact Hclean|exact Hj|exact Hs|done|exact Hw|].
  exact (batch_stops_at_missing_source iso_date plain_words stable_ties
           raw_sample_no_source _ bare_world Hclean Hj Hs eq_refl Hw).
Defined.

Lemma has_values_empty df c : rows df = [] → has_values df c = Ok false.
Proof.
  intros Hr. unfold has_values. case_decide; [|done].
  rewrite getitem_ok by done. unfold column. by rewrite Hr.
Qed.

(** The explorer on an empty filtered view: its four sections show
    their placeholders, whatever the word-cloud library does. *)
Lemma explorer_views_empty wc_words srt df top_n :
  "title" ∈ columns df → rows df = [] →
  explorer_views wc_words srt df top_n
  = Ok [Info "No valid 'year' values available for plotting.";
        Info "No journal information available to display.";
        Info "No title text available to generate a word cloud.";
        Info "No 'source_x' column available in this dataset sample."].
Proof.
  intros Ht Hr. unfold explorer_views.
  rewrite !has_values_empty by done. simpl.
  unfold all_titles. rewrite getitem_ok by done. simpl.
  unfold joined_lower, column. by rewrite Hr.
Qed.

(** C7, on the batch script.  Week8.py has none of the guards app.py
    puts before its plots: on a sample with a header and no record the
    titles join into the empty text, [WordCloud.generate] refuses it, and
    the run ends in [ValueError] after two of the four images. *)
Theorem batch_raises_on_empty_sample parse wc_words srt w :
  wc_words "" = [] → plots_dir w = true →
  week8_report parse wc_words srt empty_sample w
  = (Raise ValueError,
     mkWorld (files w) true
       (artifacts w ++ [("plots/publications_by_year.png", LinePlot []);
                        ("plots/top_journals.png", BarPlot [])])).
Proof.
  intros Hwc Hp. destruct w as [fs pd arts]. simpl in Hp. subst pd.
  unfold week8_report, week8_analysis.
  rewrite bind_run, lift_run.
  assert (week8_clean parse empty_sample
          = Ok (mkFrame ["title"; "abstract"; "publish_time"; "journal";
                         "source_x"; "year"; "abstract_word_count"] []))
    as -> by (vm_compute; reflexivity).
  rewrite bind_run, lift_run.
  assert (∀ cs, counts_by_year srt (mkFrame ("title" :: "abstract" :: "publish_time"
                   :: "journal" :: "source_x" :: "year" :: cs) []) = Ok [])
    as ->.
  { intros cs. unfold counts_by_year.
    rewrite getitem_ok by (simpl; repeat constructor).
    cbn [mbind result_bind column rows map]. by rewrite value_counts_nil. }
  rewrite bind_run, savefig_run by done.
  rewrite bind_run, lift_run. unfold top_journals.
  rewrite getitem_ok by (simpl; repeat constructor).
  cbn [mbind result_bind column rows map]. rewrite value_counts_nil. simpl.
  rewrite bind_run, savefig_run by done.
  rewrite bind_run, lift_run. unfold all_titles.
  rewrite getitem_ok by (simpl; repeat constructor). simpl.
  rewrite bind_run, lift_run. unfold wordcloud_generate, joined_lower.
  simpl. rewrite Hwc. simpl. by rewrite <- (assoc_L (++)).
Qed.

Lemma batch_raises_on_empty_sample_witness :
  plain_words "" = [] ∧ plots_dir bare_world = true
  ∧ week8_report iso_date plain_words stable_ties empty_sample bare_world
    = (Raise ValueError,
       mkWorld (files bare_world) true
         (artifacts bare_world
            ++ [("plots/publications_by_year.png", LinePlot []);
                ("plots/top_journals.png", BarPlot [])])).
Proof.
  split; [reflexivity|]. split; [reflexivity|].
  apply (batch_raises_on_empty_sample iso_date plain_words stable_ties bare_world);
    reflexivity.
Defined.

(** The source step is not the only unguarded one: a sample that has
    neither a journal nor a source_x column stops one step earlier, with
    the [KeyError] of journal, after the by-year image alone. *)
Lemma batch_stops_before_source_step :
  ("source_x" ∉ columns raw_no_journal)
  ∧ week8_report iso_date plain_words stable_ties raw_no_journal bare_world
    = (Raise (KeyError "journal"),
       mkWorld (files bare_world) true
         (artifacts bare_world
            ++ [("plots/publications_by_year.png",
                 LinePlot [(Num 2020, 1%nat)])]))
  ∧ ¬ ∃ f1 f2 f3,
        week8_report iso_date plain_words stable_ties raw_no_journal bare_world
        = (Raise (KeyError "source_x"),
           mkWorld (files bare_world) true
             (artifacts bare_world
                ++ [("plots/publications_by_year.png", f1);
                    ("plots/top_journals.png", f2);
                    ("plots/wordcloud_titles.png", f3)])).
Proof.
  assert (week8_report iso_date plain_words stable_ties raw_no_journal bare_world
          = (Raise (KeyError "journal"),
             mkWorld (files bare_world) true
               (artifacts bare_world
                  ++ [("plots/publications_by_year.png",
                       LinePlot [(Num 2020, 1%nat)])]))) as Hrun
    by (vm_compute; reflexivity).
  split_and!; [|exact Hrun|].
  - unfold raw_no_journal. cbn [columns]. intros H.
    repeat (apply elem_of_cons in H as [H|H]; [done|]).
    by apply elem_of_nil in H.
  - intros (f1 & f2 & f3 & H). rewrite Hrun in H. discriminate H.
Qed.

(** A sample without source_x and without a record stops at the word
    cloud, after two images. *)
Example batch_stops_at_cloud_without_source :
  week8_report iso_date plain_words stable_ties
    (mkFrame ["title"; "abstract"; "publish_time"; "journal"] []) bare_world
  = (Raise ValueError,
     mkWorld (files bare_world) true
       (artifacts bare_world
          ++ [("plots/publications_by_year.png", LinePlot []);
              ("plots/top_journals.png", BarPlot [])])).
Proof. vm_compute. reflexivity. Qed.

(** C2, on the batch script.  Week8.py converts publish_time without
    the presence test app.py makes first: on a sample with a title and
    an abstract column and no publish_time column the batch cleaner
    raises [KeyError] and the run ends with no cleaned records and no
    image, where [load_data] returns every record of the input. *)
Theorem batch_cleaner_needs_publish_time parse wc_words srt raw w :
  "title" ∈ columns raw → "abstract" ∈ columns raw →
  "publish_time" ∉ columns raw →
  week8_clean parse raw = Raise (KeyError "publish_time")
  ∧ week8_report parse wc_words srt raw w
    = (Raise (KeyError "publish_time"), w)
  ∧ ∃ out, load_data parse raw = Ok out
           ∧ length (rows out) = length (rows raw).
Proof.
  intros Ht Ha Hp.
  pose proof (week8_clean_no_publish_time parse raw Ht Ha Hp) as Hclean.
  split_and!; [exact Hclean| |].
  - unfold week8_report. by rewrite bind_run, lift_run, Hclean.
  - destruct (load_data_total parse raw Ht Ha) as [out Hout].
    exists out. split; [done|]. by apply load_data_inv in Hout as (? & _).
Qed.

Lemma batch_cleaner_needs_publish_time_witness :
  "title" ∈ columns (journals_titles ["Lancet"; "BMJ"])
  ∧ "abstract" ∈ columns (journals_titles ["Lancet"; "BMJ"])
  ∧ ("publish_time" ∉ columns (journals_titles ["Lancet"; "BMJ"]))
  ∧ week8_clean iso_date (journals_titles ["Lancet"; "BMJ"])
    = Raise (KeyError "publish_time")
  ∧ week8_report iso_date plain_words stable_ties
      (journals_titles ["Lancet"; "BMJ"]) bare_world
    = (Raise (KeyError "publish_time"), bare_world)
  ∧ ∃ out, load_data iso_date (journals_titles ["Lancet"; "BMJ"]) = Ok out
           ∧ length (rows out)
             = length (rows (journals_titles ["Lancet"; "BMJ"])).
Proof.
  assert ("title" ∈ columns (journals_titles ["Lancet"; "BMJ"])) as Ht
    by (simpl; repeat constructor).
  assert ("abstract" ∈ columns (journals_titles ["Lancet"; "BMJ"])) as Ha
    by (simpl; repeat constructor).
  assert ("publish_time" ∉ columns (journals_titles ["Lancet"; "BMJ"])) as Hp.
  { simpl. intros H.
    repeat (apply elem_of_cons in H as [H|H]; [done|]).
    by apply elem_of_nil in H. }
  split_and!; [exact Ht|exact Ha|exact Hp|..];
    apply (batch_cleaner_needs_publish_time iso_date plain_words stable_ties
             (journals_titles ["Lancet"; "BMJ"]) bare_world Ht Ha Hp).
Defined.

(** ** Sampler *)

Lemma path_exists_run w path :
  path_exists path w = (Ok (bool_decide (is_Some (files w !! path))), w).
Proof. done. Qed.

(** C4 (amended). The Sampler writes the sample in place: there is no
    temporary file and no rename.  When the write fails the run exits and
    no file other than the sample has changed; the previous sample is
    intact only if the failure came before the file was opened, and
    otherwise the sample holds just the lines written so far. *)
Theorem failed_sample_write_is_in_place read_text to_text fault w text df :
  fault ≠ NoFault →
  files w !! source_path = Some text →
  read_text text = Ok df →
  ∃ w',
    make_sample read_text to_text fault w = (Raise SystemExit, w')
    ∧ (∀ p, p ≠ sample_path → files w' !! p = files w !! p)
    ∧ plots_dir w' = plots_dir w
    ∧ artifacts w' = artifacts w
    ∧ match fault with
      | NoFault => True
      | FaultAtOpen => files w' !! sample_path = files w !! sample_path
      | FaultAfter k =>
          files w' !! sample_path
          = Some (take k (to_text (first_chunk 5000 df)))
      end.
Proof.
  intros Hfault Hsrc Hread. unfold make_sample.
  rewrite bind_run, path_exists_run, Hsrc.
  rewrite bool_decide_true by eauto.
  unfold try_except. rewrite bind_run, bind_run.
  unfold read_csv. rewrite Hsrc, Hread. simpl.
  unfold to_csv. destruct fault as [| |k]; [done| |]; simpl.
  - exists w. by split_and!.
  - eexists. split; [done|]. simpl. split_and!; try done.
    + intros p Hp. by rewrite lookup_insert_ne.
    + apply lookup_insert_eq.
Qed.

Lemma failed_sample_write_is_in_place_witness :
  FaultAfter 1 ≠ NoFault
  ∧ files sampled_world !! source_path = Some ["title,abstract"; "T1,A1"]
  ∧ plain_read_csv ["title,abstract"; "T1,A1"]
    = Ok (mkFrame ["title"; "abstract"]
            [ {[ "title" := Str "T1"; "abstract" := Str "A1" ]} ])
  ∧ ∃ w',
      make_sample plain_read_csv plain_to_csv (FaultAfter 1) sampled_world
      = (Raise SystemExit, w')
      ∧ files w' !! sample_path = Some ["title,abstract"].
Proof.
  assert (FaultAfter 1 ≠ NoFault) as Hf by discriminate.
  assert (files sampled_world !! source_path
          = Some ["title,abstract"; "T1,A1"]) as Hs by (vm_compute; reflexivity).
  assert (plain_read_csv ["title,abstract"; "T1,A1"]
          = Ok (mkFrame ["title"; "abstract"]
                  [ {[ "title" := Str "T1"; "abstract" := Str "A1" ]} ]))
    as Hr by (vm_compute; reflexivity).
  split_and!; [exact Hf|exact Hs|exact Hr|].
  destruct (failed_sample_write_is_in_place plain_read_csv plain_to_csv
              (FaultAfter 1) sampled_world _ _ Hf Hs Hr)
    as (w' & Hrun & _ & _ & _ & Hsample).
  exists w'. split; [exact Hrun|]. rewrite Hsample. vm_compute. reflexivity.
Defined.

(** C4, as stated, fails: a write that breaks after the file was opened
    leaves an empty sample where a valid one stood. *)
Lemma failed_write_loses_existing_sample :
  ¬ (∀ fault w w',
       fault ≠ NoFault →
       make_sample plain_read_csv plain_to_csv fault w = (Raise SystemExit, w') →
       files w' !! sample_path = files w !! sample_path).
Proof.
  intros H.
  specialize (H (FaultAfter 0) sampled_world
                (set_file sample_path [] sampled_world)).
  assert (files (set_file sample_path [] sampled_world) !! sample_path
          ≠ files sampled_world !! sample_path) as Hne
    by (vm_compute; discriminate).
  apply Hne, H; [discriminate|]. vm_compute. reflexivity.
Qed.

(** When nothing fails the sample is the first 5000 records of the
    source, written whole. *)
Lemma make_sample_writes_first_chunk read_text to_text w text df :
  files w !! source_path = Some text →
  read_text text = Ok df →
  make_sample read_text to_text NoFault w
  = (Ok (), set_file sample_path (to_text (first_chunk 5000 df)) w).
Proof.
  intros Hsrc Hread. unfold make_sample.
  rewrite bind_run, path_exists_run, Hsrc.
  rewrite bool_decide_true by eauto.
  unfold try_except. rewrite bind_run, bind_run.
  unfold read_csv. by rewrite Hsrc, Hread.
Qed.

(** Without a source to trim, Week8.py is its report on the sample as
    read; with neither file it exits at once and writes nothing. *)
Lemma week8_main_on_sample parse wc_words srt read_text to_text fault w text raw :
  files w !! source_path = None →
  files w !! sample_path = Some text →
  read_text text = Ok raw →
  week8_main parse wc_words read_text to_text fault srt w
  = week8_report parse wc_words srt raw w.
Proof.
  intros Hsrc Hsample Hread. unfold week8_main, make_sample, load_sample.
  rewrite bind_run, bind_run, path_exists_run, Hsrc.
  rewrite bool_decide_false by (by intros [? ?]). simpl.
  rewrite bind_run, bind_run, path_exists_run, Hsample.
  rewrite bool_decide_true by eauto.
  unfold try_except, read_csv. by rewrite Hsample, Hread.
Qed.

Lemma week8_main_no_input parse wc_words srt read_text to_text fault w :
  files w !! source_path = None →
  files w !! sample_path = None →
  week8_main parse wc_words read_text to_text fault srt w = (Raise SystemExit, w).
Proof.
  intros Hsrc Hsample. unfold week8_main, make_sample, load_sample.
  rewrite bind_run, bind_run, path_exists_run, Hsrc.
  rewrite bool_decide_false by (by intros [? ?]). simpl.
  rewrite bind_run, bind_run, path_exists_run, Hsample.
  by rewrite bool_decide_false by (by intros [? ?]).
Qed.

(** * More of the two scripts *)

(** ** Cleaner: what each column of the cleaned frame holds *)

Lemma length_rows_setitem_min df c s :
  length (rows (setitem df c s)) = Nat.min (length (rows df)) (length s).
Proof. simpl. by rewrite length_zip_with. Qed.

Lemma length_rows_setitem_scalar df c v :
  length (rows (setitem_scalar df c v)) = length (rows df).
Proof. simpl. by rewrite length_map. Qed.

Lemma length_to_datetime parse s : length (to_datetime parse s) = length s.
Proof. unfold to_datetime. by rewrite length_map. Qed.

Lemma length_rows_drop df cs : length (rows (drop df cs)) = length (rows df).
Proof. simpl. by rewrite length_map. Qed.

Ltac len_solve :=
  repeat first
    [ rewrite length_rows_setitem_min | rewrite length_rows_setitem_scalar
    | rewrite length_rows_drop
    | rewrite length_fillna | rewrite length_to_datetime
    | rewrite length_map | rewrite length_column ];
  lia.

Lemma column_setitem df c s c' :
  length s = length (rows df) →
  column (setitem df c s) c' = if decide (c' = c) then s else column df c'.
Proof.
  intros Hlen. case_decide as Hc.
  - subst. by apply column_setitem_same.
  - by apply column_setitem_other.
Qed.

Lemma column_setitem_scalar df c v c' :
  column (setitem_scalar df c v) c'
  = if decide (c' = c) then map (λ _, v) (rows df) else column df c'.
Proof.
  unfold column. simpl. rewrite map_map.
  case_decide as Hc; apply map_ext; intros r.
  - subst. by rewrite lookup_insert_eq.
  - by rewrite lookup_insert_ne.
Qed.

Lemma dt_year_to_datetime_eq parse s :
  dt_year (to_datetime parse s) = Ok (map year_of_cell (to_datetime parse s)).
Proof.
  unfold dt_year. induction s as [|c s IH]; [done|].
  simpl. rewrite IH.
  destruct c as [|str|z|t]; simpl; try done.
  - by destruct (parse (Str str)).
  - by destruct (parse (Num z)).
Qed.

(** [load_data] as the sequence of its assignments. *)
Lemma load_data_unfold parse raw out :
  load_data parse raw = Ok out →
  let df1 := setitem raw "title" (fillna title_sentinel (column raw "title")) in
  let df2 := setitem df1 "abstract"
               (fillna abstract_sentinel (column df1 "abstract")) in
  let dates := to_datetime parse (column df2 "publish_time") in
  let df4 := if decide ("publish_time" ∈ columns df2)
             then setitem (setitem df2 "publish_time" dates) "year"
                    (map year_of_cell dates)
             else setitem_scalar df2 "year" NA in
  "title" ∈ columns raw ∧ "abstract" ∈ columns raw
  ∧ out = setitem df4 "abstract_word_count"
            (map word_count (column df4 "abstract")).
Proof.
  unfold load_data. intros H. getitem_inv H. getitem_inv H. bind_inv H.
  getitem_inv H. injection H as <-. cbv zeta.
  split; [done|]. split.
  { apply columns_setitem in Hc0 as [?|?]; done. }
  case_decide as Hpt.
  - rewrite getitem_ok in Hs by done. cbn [mbind result_bind] in Hs.
    rewrite getitem_ok in Hs by (apply columns_setitem; by left).
    cbn [mbind result_bind] in Hs.
    rewrite column_setitem_same in Hs by len_solve.
    rewrite dt_year_to_datetime_eq in Hs. cbn [mbind result_bind] in Hs.
    injection Hs as Hs. subst s. reflexivity.
  - injection Hs as Hs. subst s. reflexivity.
Qed.

(** X1. In the frame [load_data] returns, a title or abstract the input
    had is unchanged and a missing one is the sentinel text, so both
    are never null; the word count is the number of whitespace-separated
    tokens of that abstract; every column the cleaner does not assign
    (journal, source_x, authors, the sparse identifiers, ...) is carried
    over cell by cell, nulls included. *)
Theorem load_data_columns parse raw out :
  load_data parse raw = Ok out →
  column out "title" = fillna title_sentinel (column raw "title")
  ∧ column out "abstract" = fillna abstract_sentinel (column raw "abstract")
  ∧ Forall (λ v, v ≠ NA) (column out "title")
  ∧ Forall (λ v, v ≠ NA) (column out "abstract")
  ∧ column out "abstract_word_count" = map word_count (column out "abstract")
  ∧ (∀ c, c ∉ ["title"; "abstract"; "publish_time"; "year";
               "abstract_word_count"] →
          column out c = column raw c).
Proof.
  intros H. apply load_data_unfold in H as (Ht & Ha & ->). simpl.
  set (df1 := setitem raw "title" _).
  set (df2 := setitem df1 "abstract" _).
  assert (Hlen1 : length (rows df1) = length (rows raw)) by (unfold df1; len_solve).
  assert (Hlen2 : length (rows df2) = length (rows raw)) by (unfold df2; len_solve).
  assert (Hcol2 : ∀ c, column df2 c
                       = if decide (c = "abstract")
                         then fillna abstract_sentinel (column raw "abstract")
                         else if decide (c = "title")
                              then fillna title_sentinel (column raw "title")
                              else column raw c).
  { intros c. unfold df2. rewrite column_setitem by len_solve.
    unfold df1. rewrite !column_setitem by len_solve.
    repeat case_decide; done. }
  set (df4 := if decide _ then _ else _).
  assert (Hlen4 : length (rows df4) = length (rows raw)).
  { unfold df4. case_decide; len_solve. }
  assert (Hcol4 : ∀ c, c ≠ "publish_time" → c ≠ "year" →
                       column df4 c = column df2 c).
  { intros c Hp Hy. unfold df4. case_decide.
    - rewrite !column_setitem by len_solve. by rewrite !decide_False by done.
    - rewrite column_setitem_scalar. by rewrite decide_False by done. }
  assert (Hnn : ∀ v s, v ≠ NA → Forall (λ x, x ≠ NA) (fillna v s)).
  { intros v s Hv. unfold fillna. apply Forall_fmap, Forall_true.
    intros [| | |]; simpl; done. }
  assert (Hout : ∀ c, c ≠ "abstract_word_count" → c ≠ "publish_time" →
                      c ≠ "year" →
                      column (setitem df4 "abstract_word_count"
                                (map word_count (column df4 "abstract"))) c
                      = column df2 c).
  { intros c H1 H2 H3. rewrite column_setitem by len_solve.
    rewrite decide_False by done. by apply Hcol4. }
  split_and!.
  - rewrite Hout, Hcol2 by done. done.
  - rewrite Hout, Hcol2 by done. done.
  - rewrite Hout, Hcol2 by done. by apply Hnn.
  - rewrite Hout, Hcol2 by done. by apply Hnn.
  - rewrite !column_setitem by len_solve. reflexivity.
  - intros c Hc. rewrite Hout, Hcol2 by set_solver.
    by rewrite !decide_False by set_solver.
Qed.

Lemma load_data_columns_witness :
  load_data iso_date raw_sample = Ok clean_sample
  ∧ column clean_sample "title"
    = fillna title_sentinel (column raw_sample "title")
  ∧ (∀ c, c ∉ ["title"; "abstract"; "publish_time"; "year";
               "abstract_word_count"] →
          column clean_sample c = column raw_sample c).
Proof.
  assert (load_data iso_date raw_sample = Ok clean_sample) as H
    by (vm_compute; reflexivity).
  split; [exact H|].
  destruct (load_data_columns iso_date raw_sample clean_sample H)
    as (Ht & _ & _ & _ & _ & Hc).
  split; [exact Ht|exact Hc].
Defined.

(** X2. When the sample has a publish_time column, [load_data] turns
    each of its cells into a timestamp or, when it is missing or cannot
    be read, into a null, without ever raising; the year of a record is
    the calendar year of that timestamp and is null exactly when the
    parsed publish_time is null. *)
Theorem load_data_dates parse raw out :
  load_data parse raw = Ok out →
  "publish_time" ∈ columns raw →
  column out "publish_time" = to_datetime parse (column raw "publish_time")
  ∧ column out "year" = map year_of_cell (column out "publish_time")
  ∧ Forall2 (λ p y, (p = NA ↔ y = NA)
                    ∧ ∀ t, p = Time t → y = Num (ts_year t))
      (column out "publish_time") (column out "year").
Proof.
  intros H Hpt. apply load_data_unfold in H as (Ht & Ha & ->). cbv zeta.
  set (df1 := setitem raw "title" _).
  set (df2 := setitem df1 "abstract" _).
  assert (Hlen1 : length (rows df1) = length (rows raw)) by (unfold df1; len_solve).
  assert (Hlen2 : length (rows df2) = length (rows raw)) by (unfold df2; len_solve).
  assert (Hp2 : column df2 "publish_time" = column raw "publish_time").
  { unfold df2. rewrite column_setitem by len_solve.
    unfold df1. rewrite !column_setitem by len_solve. done. }
  rewrite decide_True
    by (apply columns_setitem; right; apply columns_setitem; by right).
  rewrite Hp2.
  assert (Hp : column
                 (setitem
                    (setitem (setitem df2 "publish_time"
                                (to_datetime parse (column raw "publish_time")))
                       "year"
                       (map year_of_cell
                          (to_datetime parse (column raw "publish_time"))))
                    "abstract_word_count"
                    (map word_count
                       (column
                          (setitem (setitem df2 "publish_time"
                                      (to_datetime parse (column raw "publish_time")))
                             "year"
                             (map year_of_cell
                                (to_datetime parse (column raw "publish_time"))))
                          "abstract"))) "publish_time"
               = to_datetime parse (column raw "publish_time")).
  { rewrite !column_setitem by len_solve. done. }
  assert (Hy : column
                 (setitem
                    (setitem (setitem df2 "publish_time"
                                (to_datetime parse (column raw "publish_time")))
                       "year"
                       (map year_of_cell
                          (to_datetime parse (column raw "publish_time"))))
                    "abstract_word_count"
                    (map word_count
                       (column
                          (setitem (setitem df2 "publish_time"
                                      (to_datetime parse (column raw "publish_time")))
                             "year"
                             (map year_of_cell
                                (to_datetime parse (column raw "publish_time"))))
                          "abstract"))) "year"
               = map year_of_cell (to_datetime parse (column raw "publish_time"))).
  { rewrite !column_setitem by len_solve. done. }
  rewrite Hp, Hy. split_and!; [done..|].
  generalize (column raw "publish_time"). intros s.
  induction s as [|c s IH]; [constructor|].
  simpl. constructor; [|exact IH].
  destruct c as [|str|z|t]; simpl.
  - split; [done|]. by intros t [=].
  - destruct (parse (Str str)); simpl; (split; [done|]); intros t' [=]; by subst.
  - destruct (parse (Num z)); simpl; (split; [done|]); intros t' [=]; by subst.
  - split; [done|]. intros t' [=]. by subst.
Qed.

Lemma load_data_dates_witness :
  load_data iso_date raw_sample = Ok clean_sample
  ∧ "publish_time" ∈ columns raw_sample
  ∧ column clean_sample "year"
    = map year_of_cell (column clean_sample "publish_time").
Proof.
  assert (load_data iso_date raw_sample = Ok clean_sample) as H
    by (vm_compute; reflexivity).
  assert ("publish_time" ∈ columns raw_sample) as Hp
    by (simpl; repeat constructor).
  split; [exact H|]. split; [exact Hp|].
  by destruct (load_data_dates iso_date raw_sample clean_sample H Hp)
    as (_ & Hy & _).
Defined.

Lemma week8_clean_unfold parse raw out :
  week8_clean parse raw = Ok out →
  let df0 := drop raw drop_cols in
  let df1 := setitem df0 "abstract"
               (fillna abstract_sentinel (column df0 "abstract")) in
  let df2 := setitem df1 "title" (fillna title_sentinel (column df1 "title")) in
  let dates := to_datetime parse (column df2 "publish_time") in
  let df4 := setitem (setitem df2 "publish_time" dates) "year"
               (map year_of_cell dates) in
  "title" ∈ columns raw ∧ "abstract" ∈ columns raw
  ∧ "publish_time" ∈ columns raw
  ∧ out = setitem df4 "abstract_word_count"
            (map word_count (column df4 "abstract")).
Proof.
  unfold week8_clean. intros H. getitem_inv H. getitem_inv H. getitem_inv H.
  cbv zeta.
  rewrite getitem_ok in H by (apply columns_setitem; by left).
  cbn [mbind result_bind] in H.
  rewrite column_setitem_same in H by len_solve.
  rewrite dt_year_to_datetime_eq in H. cbn [mbind result_bind] in H.
  getitem_inv H. injection H as H. subst out.
  rewrite !columns_setitem, columns_drop in Hc1.
  rewrite columns_setitem, columns_drop in Hc0.
  rewrite columns_drop in Hc.
  split_and!; [naive_solver..|reflexivity].
Qed.

Lemma load_data_column parse raw out c :
  load_data parse raw = Ok out → "publish_time" ∈ columns raw →
  column out c = cleaned_column parse raw c.
Proof.
  intros H Hpt. apply load_data_unfold in H as (Ht & Ha & ->). cbv zeta.
  rewrite decide_True
    by (apply columns_setitem; right; apply columns_setitem; by right).
  unfold cleaned_column.
  rewrite !column_setitem by len_solve.
  repeat case_decide; subst; try done.
  all: rewrite ?column_setitem by len_solve; by rewrite ?decide_False by done.
Qed.

Lemma week8_clean_column parse raw out c :
  week8_clean parse raw = Ok out → c ∉ drop_cols →
  column out c = cleaned_column parse raw c.
Proof.
  intros H Hc. apply week8_clean_unfold in H as (Ht & Ha & Hpt & ->). cbv zeta.
  unfold cleaned_column.
  rewrite !column_setitem by len_solve.
  rewrite ?(column_drop_other _ _ "abstract"),
          ?(column_drop_other _ _ "title"),
          ?(column_drop_other _ _ "publish_time")
    by (apply not_dropped; set_solver).
  rewrite ?(column_drop_other _ _ c) by done.
  repeat case_decide; subst; try done.
  all: rewrite !column_setitem by len_solve.
  all: rewrite ?decide_False by done.
  all: rewrite ?decide_True by done.
  all: rewrite ?column_drop_other by first [done | apply not_dropped; set_solver].
  all: done.
Qed.

(** X3. The two copies of the cleaning code agree: on a sample both
    accept, the frame Week8.py cleans and the frame [load_data] returns
    hold the same cells in every column the batch script keeps, and
    the batch frame has exactly the columns of the other one minus the
    seven it drops. *)
Theorem cleaners_agree parse raw batch inter :
  week8_clean parse raw = Ok batch →
  load_data parse raw = Ok inter →
  (∀ c, c ∉ drop_cols → column batch c = column inter c)
  ∧ (∀ c, c ∈ columns batch ↔ c ∈ columns inter ∧ c ∉ drop_cols).
Proof.
  intros Hb Hi.
  pose proof (week8_clean_unfold _ _ _ Hb) as (_ & _ & Hpt & _).
  split.
  - intros c Hc.
    by rewrite (week8_clean_column _ _ _ _ Hb Hc),
               (load_data_column _ _ _ _ Hi Hpt).
  - intros c. apply week8_clean_inv in Hb as (_ & Hcb & _).
    apply load_data_inv in Hi as (_ & Hci & _). rewrite Hcb, Hci.
    assert ("year" ∉ drop_cols) by (apply not_dropped; set_solver).
    assert ("abstract_word_count" ∉ drop_cols) by (apply not_dropped; set_solver).
    naive_solver.
Qed.

Lemma cleaners_agree_witness :
  ∃ batch,
    week8_clean iso_date raw_sample = Ok batch
    ∧ load_data iso_date raw_sample = Ok clean_sample
    ∧ (∀ c, c ∉ drop_cols → column batch c = column clean_sample c).
Proof.
  eexists.
  assert (week8_clean iso_date raw_sample = Ok _) as Hb
    by (vm_compute; reflexivity).
  assert (load_data iso_date raw_sample = Ok clean_sample) as Hi
    by (vm_compute; reflexivity).
  split; [exact Hb|]. split; [exact Hi|].
  exact (proj1 (cleaners_agree iso_date raw_sample _ clean_sample Hb Hi)).
Defined.

(** X4. The cleaners fail only on a missing column, with the
    [KeyError] of the first column they index: [load_data] asks for
    title, then abstract, and treats a missing publish_time as "no
    year"; Week8.py asks for abstract, then title, then publish_time. *)
Theorem cleaners_fail_on_missing_column_only parse raw :
  match load_data parse raw with
  | Ok _ => "title" ∈ columns raw ∧ "abstract" ∈ columns raw
  | Raise e =>
      (e = KeyError "title" ∧ "title" ∉ columns raw)
      ∨ (e = KeyError "abstract" ∧ "title" ∈ columns raw
         ∧ "abstract" ∉ columns raw)
  end
  ∧ match week8_clean parse raw with
    | Ok _ => "abstract" ∈ columns raw ∧ "title" ∈ columns raw
              ∧ "publish_time" ∈ columns raw
    | Raise e =>
        (e = KeyError "abstract" ∧ "abstract" ∉ columns raw)
        ∨ (e = KeyError "title" ∧ "abstract" ∈ columns raw
           ∧ "title" ∉ columns raw)
        ∨ (e = KeyError "publish_time" ∧ "abstract" ∈ columns raw
           ∧ "title" ∈ columns raw ∧ "publish_time" ∉ columns raw)
    end.
Proof.
  split.
  - destruct (decide ("title" ∈ columns raw)) as [Ht|Ht].
    + destruct (decide ("abstract" ∈ columns raw)) as [Ha|Ha].
      * by destruct (load_data_total parse raw Ht Ha) as [out ->].
      * unfold load_data. rewrite getitem_ok by done.
        cbn [mbind result_bind]. rewrite getitem_missing; [cbn; auto|].
        rewrite columns_setitem. naive_solver.
    + unfold load_data. rewrite getitem_missing by done. cbn. auto.
  - destruct (decide ("abstract" ∈ columns raw)) as [Ha|Ha].
    + destruct (decide ("title" ∈ columns raw)) as [Ht|Ht].
      * destruct (decide ("publish_time" ∈ columns raw)) as [Hp|Hp].
        -- by destruct (week8_clean_total parse raw Ht Ha Hp) as [out ->].
        -- unfold week8_clean.
           rewrite getitem_ok
             by (apply columns_drop; split; [done|apply not_dropped; set_solver]).
           cbn [mbind result_bind].
           rewrite getitem_ok
             by (apply columns_setitem; right; apply columns_drop;
                 split; [done|apply not_dropped; set_solver]).
           cbn [mbind result_bind]. rewrite getitem_missing; [cbn; auto 10|].
           rewrite !columns_setitem, columns_drop. naive_solver.
      * unfold week8_clean.
        rewrite getitem_ok
          by (apply columns_drop; split; [done|apply not_dropped; set_solver]).
        cbn [mbind result_bind]. rewrite getitem_missing; [cbn; auto 10|].
        rewrite !columns_setitem, columns_drop. naive_solver.
    + unfold week8_clean. rewrite getitem_missing; [cbn; auto|].
      rewrite columns_drop. naive_solver.
Qed.

(** ** Words of the titles *)

Lemma split_from_space cur s sp t :
  is_space sp = true →
  split_from cur (s +:+ String sp t)
  = (split_from cur s ++ split_from EmptyString t)%list.
Proof.
  intros Hsp. revert cur. induction s as [|a s IH]; intros cur; simpl.
  - by rewrite Hsp.
  - destruct (is_space a); [|apply IH].
    by rewrite IH, (assoc_L (++)).
Qed.

(** Joining with a space and splitting again gives the words of each
    piece, in order. *)
Lemma py_split_join l :
  py_split (py_join " " l) = concat (map py_split l).
Proof.
  induction l as [|x [|y l] IH]; [done| |].
  - simpl. by rewrite app_nil_r.
  - change (py_join " " (x :: y :: l))
      with (x +:+ String " "%char (py_join " " (y :: l))).
    unfold py_split in *. rewrite split_from_space by done.
    by rewrite IH.
Qed.

Lemma py_lower_app a b : py_lower (a +:+ b) = py_lower a +:+ py_lower b.
Proof. induction a as [|c a IH]; simpl; [done|]. by rewrite IH. Qed.

Lemma py_lower_join l :
  py_lower (py_join " " l) = py_join " " (map py_lower l).
Proof.
  induction l as [|x [|y l] IH]; [done..|].
  change (py_join " " (x :: y :: l))
    with (x +:+ String " "%char (py_join " " (y :: l))).
  rewrite py_lower_app. cbn [py_lower]. rewrite IH. reflexivity.
Qed.

Lemma filter_concat {A} (P : A → Prop) `{!∀ x, Decision (P x)} (ls : list (list A)) :
  filter P (concat ls) = concat (map (filter P) ls).
Proof.
  induction ls as [|l ls IH]; [done|]. simpl. by rewrite filter_app, IH.
Qed.

Lemma title_words_total df :
  "title" ∈ columns df → ∃ words, title_words df = Ok words.
Proof.
  intros Ht. unfold title_words, all_titles.
  rewrite getitem_ok by done. cbn [mbind result_bind]. eauto.
Qed.

(** The string functions on text outside ASCII: a no-break space
    separates words and is stripped, accented capitals are lowered, and
    a length counts characters. *)
Example py_split_no_break_space :
  py_split ("alpha" +:+ nbsp +:+ "beta gamma") = ["alpha"; "beta"; "gamma"]
  ∧ word_count (Str ("alpha" +:+ nbsp +:+ "beta gamma")) = Num 3
  ∧ py_strip (nbsp +:+ " x " +:+ nbsp) = "x"
  ∧ py_strip nbsp = "".
Proof. split_and!; vm_compute; reflexivity. Qed.

Example py_lower_accented :
  py_lower (capital_e_acute +:+ "tude COVID") = small_e_acute +:+ "tude covid"
  ∧ String.length (small_e_acute +:+ "t" +:+ small_e_acute) = 3%nat
  ∧ words_of_title (Str (capital_e_acute +:+ "tude virale COVID "
                         +:+ small_e_acute +:+ "t" +:+ small_e_acute))
    = [small_e_acute +:+ "tude"; "virale"; "covid"].
Proof. split_and!; vm_compute; reflexivity. Qed.

(** X5. The words Week8.py counts are, title after title in record
    order, the lower-cased whitespace-separated tokens of more than
    three characters of every non-null title: gluing the titles with a
    space and splitting the whole neither merges nor cuts a word.
    Stated for a title column of text and nulls. *)
Theorem title_words_by_title df :
  "title" ∈ columns df →
  Forall text_or_null (column df "title") →
  title_words df
  = Ok (concat (map words_of_title (dropna (column df "title")))).
Proof.
  intros Ht _. unfold title_words, all_titles, joined_lower.
  rewrite getitem_ok by done. cbn [mbind result_bind]. f_equal.
  rewrite py_lower_join, py_split_join, filter_concat.
  by rewrite !map_map.
Qed.

Lemma title_words_by_title_witness :
  "title" ∈ columns accented_titles
  ∧ Forall text_or_null (column accented_titles "title")
  ∧ title_words accented_titles
    = Ok [small_e_acute +:+ "tude"; "virale"; "covid";
          "alpha"; "beta"; "gamma"].
Proof.
  assert ("title" ∈ columns accented_titles) as Ht
    by (simpl; repeat constructor).
  assert (Forall text_or_null (column accented_titles "title")) as Htext.
  { unfold accented_titles, column. cbn [rows map].
    repeat (apply Forall_cons; split; [vm_compute; eauto|]).
    apply Forall_nil_2. }
  split_and!; [exact Ht|exact Htext|].
  rewrite (title_words_by_title accented_titles Ht Htext).
  vm_compute. reflexivity.
Defined.

(** ** Counting *)

(** Counting then sorting: every key once, with its number of
    occurrences, the most frequent first, ties in order of first
    appearance. *)
Lemma sort_desc_tally_spec {K} `{EqDecision K} (l : list K) :
  NoDup (sort_desc (tally l)).*1
  ∧ (∀ k c, (k, c) ∈ sort_desc (tally l) ↔ k ∈ l ∧ c = count k l)
  ∧ StronglySorted (ranks_before l) (sort_desc (tally l)).
Proof.
  split_and!.
  - rewrite sort_desc_perm. apply tally_NoDup.
  - intros k c. by rewrite sort_desc_perm, elem_of_tally.
  - apply (sort_desc_sorted
             (λ x y, (first_pos x.1 l < first_pos y.1 l)%nat)),
          (StronglySorted_fmap_inv fst
             (λ a b, (first_pos a l < first_pos b l)%nat)),
          tally_first_seen.
Qed.

(** X6. The "most common words" Week8.py prints are the first twenty
    of the list that holds every counted word once with its number of
    occurrences, the most frequent first and, among words as frequent,
    the one met first in the titles first. *)
Theorem common_words_ranking df :
  "title" ∈ columns df →
  ∃ words full,
    title_words df = Ok words
    ∧ common_words df = Ok (take 20 full)
    ∧ NoDup full.*1
    ∧ (∀ w c, (w, c) ∈ full ↔ w ∈ words ∧ c = count w words)
    ∧ StronglySorted (ranks_before words) full.
Proof.
  intros Ht. pose proof (title_words_total df Ht) as [words Hw].
  exists words, (sort_desc (tally words)).
  unfold common_words. rewrite Hw. cbn [mbind result_bind].
  destruct (sort_desc_tally_spec words) as (? & ? & ?).
  by split_and!.
Qed.

Lemma common_words_ranking_witness :
  "title" ∈ columns raw_sample
  ∧ ∃ words full,
      title_words raw_sample = Ok words
      ∧ common_words raw_sample = Ok (take 20 full)
      ∧ NoDup full.*1
      ∧ (∀ w c, (w, c) ∈ full ↔ w ∈ words ∧ c = count w words)
      ∧ StronglySorted (ranks_before words) full.
Proof.
  assert ("title" ∈ columns raw_sample) as Ht by (simpl; repeat constructor).
  split; [exact Ht|]. exact (common_words_ranking raw_sample Ht).
Defined.

Lemma insert_asc_perm x s : insert_asc x s ≡ₚ x :: s.
Proof.
  induction s as [|y s IH]; simpl; [done|].
  destruct (cell_ltb y.1 x.1); [|done]. rewrite IH. apply Permutation_swap.
Qed.

Lemma sort_index_perm s : sort_index s ≡ₚ s.
Proof.
  induction s as [|x s IH]; simpl; [done|].
  by rewrite insert_asc_perm, IH.
Qed.

(** Insertion by year keeps a list of numbered entries in order. *)
Lemma insert_asc_sorted (key : cell * nat → Z) x s :
  (∀ p, p ∈ x :: s → p.1 = Num (key p)) →
  StronglySorted (λ a b, key a ≤ key b) s →
  StronglySorted (λ a b, key a ≤ key b) (insert_asc x s).
Proof.
  induction s as [|y s IH]; simpl; intros Hnum Hs.
  - repeat constructor.
  - apply StronglySorted_cons in Hs as [Hys Hs].
    assert (cell_ltb y.1 x.1 = bool_decide (key y < key x)) as ->.
    { rewrite (Hnum x), (Hnum y) by set_solver. done. }
    case_bool_decide as Hlt.
    + constructor.
      * apply IH; [|done]. intros p Hp. apply Hnum. set_solver.
      * rewrite insert_asc_perm. constructor; [lia|done].
    + constructor; [by constructor|].
      constructor; [lia|].
      rewrite Forall_forall in Hys |- *. intros z Hz.
      specialize (Hys z Hz). simpl in *. lia.
Qed.

Lemma sort_index_sorted (key : cell * nat → Z) s :
  (∀ p, p ∈ s → p.1 = Num (key p)) →
  StronglySorted (λ a b, key a ≤ key b) (sort_index s).
Proof.
  induction s as [|x s IH]; simpl; intros Hnum; [constructor|].
  apply insert_asc_sorted.
  - intros p Hp. apply Hnum. revert Hp. rewrite !elem_of_cons.
    rewrite sort_index_perm. done.
  - apply IH. intros p Hp. apply Hnum. by constructor.
Qed.

(** A series of nulls and numbers counts into ascending, distinct
    years. *)
Lemma counts_sorted_by_year srt (s : Series) :
  Forall (λ v, v = NA ∨ ∃ z, v = Num z) s →
  StronglySorted year_lt (sort_index (value_counts srt s)).
Proof.
  intros Hs.
  set (key := λ p : cell * nat, match p.1 with Num z => z | _ => 0 end).
  destruct (value_counts_spec srt s) as (Hnd & Hmem & _).
  assert (Hnum : ∀ p, p ∈ value_counts srt s → p.1 = Num (key p)).
  { intros [k c] Hp. apply Hmem in Hp as (Hk & Hin & _).
    rewrite Forall_forall in Hs. destruct (Hs k Hin) as [->|[z ->]]; done. }
  pose proof (sort_index_sorted key _ Hnum) as Hsorted.
  assert (NoDup (sort_index (value_counts srt s)).*1) as Hnd'
    by by rewrite sort_index_perm.
  assert (∀ p, p ∈ sort_index (value_counts srt s) → p.1 = Num (key p)) as Hnum'.
  { intros p. rewrite sort_index_perm. apply Hnum. }
  revert Hsorted Hnd' Hnum'.
  generalize (sort_index (value_counts srt s)). intros l.
  induction l as [|x l IH]; [constructor|].
  rewrite fmap_cons, NoDup_cons.
  intros [Hall Hl]%StronglySorted_cons [Hnew Hnd'] Hnum'.
  constructor.
  - apply IH; [done..|]. intros p Hp. apply Hnum'. by constructor.
  - rewrite Forall_forall in Hall |- *. intros y Hy.
    specialize (Hall y Hy). simpl in Hall.
    unfold year_lt. rewrite (Hnum' x), (Hnum' y) by set_solver.
    destruct (decide (key x = key y)) as [Heq|]; [|lia].
    exfalso. apply Hnew. apply list_elem_of_fmap. exists y. split; [|done].
    by rewrite (Hnum' x), (Hnum' y), Heq by set_solver.
Qed.

(** X7. On a cleaned frame, the publications per year list every year
    that occurs once, with the number of records of that year, in
    strictly ascending order of year; records without a year are not
    counted. *)
Theorem counts_by_year_ascending srt parse raw df :
  load_data parse raw = Ok df ∨ week8_clean parse raw = Ok df →
  ∃ l,
    counts_by_year srt df = Ok l
    ∧ (∀ k c, (k, c) ∈ l ↔
              k ≠ NA ∧ k ∈ column df "year" ∧ c = count k (column df "year"))
    ∧ StronglySorted year_lt l.
Proof.
  intros H.
  assert ("year" ∈ columns df
          ∧ Forall (λ v, v = NA ∨ ∃ z, v = Num z) (column df "year"))
    as [Hy Hcells].
  { destruct H as [H|H].
    - split; [by eapply load_data_has_year|].
      apply load_data_inv in H as (_ & _ & Hok & _).
      unfold column. apply Forall_fmap. eapply Forall_impl; [exact Hok|].
      intros r Hr. simpl. destruct Hr as [Hr|[z Hr]]; rewrite Hr; simpl; eauto.
    - pose proof (week8_clean_inv _ _ _ H) as (_ & Hcols & _).
      split; [apply Hcols; auto|].
      rewrite (week8_clean_column _ _ _ "year" H)
        by (apply not_dropped; set_solver).
      unfold cleaned_column. simpl. apply Forall_fmap, Forall_true.
      intros [| | |t]; simpl; eauto. }
  exists (sort_index (value_counts srt (column df "year"))).
  unfold counts_by_year. rewrite getitem_ok by done.
  split_and!; [done| |by apply counts_sorted_by_year].
  intros k c. rewrite sort_index_perm.
  by destruct (value_counts_spec srt (column df "year")) as (_ & -> & _).
Qed.

Lemma counts_by_year_ascending_witness :
  (load_data iso_date raw_sample = Ok clean_sample
   ∨ week8_clean iso_date raw_sample = Ok clean_sample)
  ∧ ∃ l,
      counts_by_year stable_ties clean_sample = Ok l
      ∧ (∀ k c, (k, c) ∈ l ↔
                k ≠ NA ∧ k ∈ column clean_sample "year"
                ∧ c = count k (column clean_sample "year"))
      ∧ StronglySorted year_lt l.
Proof.
  assert (load_data iso_date raw_sample = Ok clean_sample) as H
    by (vm_compute; reflexivity).
  split; [by left|].
  exact (counts_by_year_ascending stable_ties iso_date raw_sample clean_sample
           (or_introl H)).
Defined.

(** ** Sidebar *)







(** X9. The journals the sidebar offers are at most fifty, distinct,
    non-null and taken from the sample, and whatever the user picks
    among them, with whatever year range, the filter step returns a
    view and never raises. *)
Theorem sidebar_choices_never_raise srt parse raw df :
  load_data parse raw = Ok df →
  ∃ opts,
    top_journal_list srt df = Ok opts
    ∧ (length opts ≤ 50)%nat
    ∧ NoDup opts
    ∧ (∀ j, j ∈ opts → j ≠ NA ∧ j ∈ column df "journal")
    ∧ (∀ f, journal_set f ⊆ opts →
            apply_filters df f
            = Ok (mkFrame (columns df) (filter (passes f) (rows df)))).
Proof.
  intros Hload.
  pose proof (load_data_has_year _ _ _ Hload) as Hy.
  apply load_data_inv in Hload as (_ & _ & Hok & _).
  unfold top_journal_list. case_decide as Hj.
  - rewrite getitem_ok by done. cbn [mbind result_bind].
    destruct (value_counts_spec srt (column df "journal")) as (Hnd & Hmem & _).
    eexists. split; [done|]. split_and!.
    + rewrite length_fmap, length_take. lia.
    + rewrite fmap_take. eapply sublist_NoDup; [done|apply sublist_take].
    + intros j Hin. rewrite fmap_take in Hin.
      eapply elem_of_sublist in Hin; [|apply sublist_take].
      apply list_elem_of_fmap in Hin as ([k c] & -> & Hin).
      apply Hmem in Hin. naive_solver.
    + intros f _. rewrite apply_filters_canonical by done.
      by rewrite decide_True by by right.
  - exists []. split_and!; [done|simpl; lia|constructor| |].
    + by intros j ?%elem_of_nil.
    + intros f Hsub. rewrite apply_filters_canonical by done.
      rewrite decide_True; [done|]. left.
      destruct (journal_set f) as [|j js]; [done|].
      exfalso. eapply (not_elem_of_nil j), Hsub. constructor.
Qed.

Lemma sidebar_choices_never_raise_witness :
  load_data iso_date raw_sample = Ok clean_sample
  ∧ ∃ opts,
      top_journal_list stable_ties clean_sample = Ok opts
      ∧ (length opts ≤ 50)%nat
      ∧ NoDup opts
      ∧ (∀ j, j ∈ opts → j ≠ NA ∧ j ∈ column clean_sample "journal")
      ∧ (∀ f, journal_set f ⊆ opts →
              apply_filters clean_sample f
              = Ok (mkFrame (columns clean_sample)
                      (filter (passes f) (rows clean_sample)))).
Proof.
  assert (load_data iso_date raw_sample = Ok clean_sample) as H
    by (vm_compute; reflexivity).
  split; [exact H|].
  exact (sidebar_choices_never_raise stable_ties iso_date raw_sample clean_sample H).
Defined.

(** ** Overview, preview and download *)

Lemma take_where_sublist {A} (m : list bool) (l : list A) :
  take_where m l `sublist_of` l.
Proof.
  revert m. induction l as [|x l IH]; intros [|b m]; simpl;
    try apply sublist_nil_l.
  destruct b; [by apply sublist_skip|by apply sublist_cons].
Qed.

(** Whatever the frame, a filter step that returns gives back some of
    its records, in order, under the same columns. *)
Lemma apply_filters_sublist df f view :
  apply_filters df f = Ok view →
  columns view = columns df ∧ rows view `sublist_of` rows df.
Proof.
  unfold apply_filters, year_filter, journal_filter. intros H.
  apply bind_Ok in H as (d & Hd & H).
  assert (columns d = columns df ∧ rows d `sublist_of` rows df) as [Hc Hr].
  { case_decide.
    - getitem_inv Hd. bind_inv Hd. injection Hd as <-. simpl.
      split; [done|apply take_where_sublist].
    - by injection Hd as <-. }
  destruct (journal_set f) as [|j js].
  - by injection H as <-.
  - getitem_inv H. injection H as <-. simpl. split; [done|].
    etrans; [apply take_where_sublist|done].
Qed.

Lemma nunique_le (s : Series) : (nunique s ≤ length s)%nat.
Proof.
  unfold nunique. etrans; [|apply (length_filter (λ c, c ≠ NA))].
  fold (dropna s). rewrite <- (length_fmap fst).
  apply submseteq_length, NoDup_submseteq; [apply tally_NoDup|].
  intros k. by rewrite tally_keys.
Qed.

(** X10. The three figures of the overview are consistent for every
    frame and filter: the view has the columns of the sample and some
    of its records in their order, so "records after filter" never
    exceeds "total records", and "unique journals" never exceeds the
    records after the filter. *)
Theorem overview_consistent df f view :
  apply_filters df f = Ok view →
  columns view = columns df
  ∧ rows view `sublist_of` rows df
  ∧ ∃ unique_journals,
      overview df view
      = Ok (length (rows df), length (rows view), unique_journals)
      ∧ (unique_journals ≤ length (rows view) ≤ length (rows df))%nat.
Proof.
  intros H. apply apply_filters_sublist in H as [Hc Hr].
  split_and!; [done..|]. unfold overview. case_decide.
  - rewrite getitem_ok by done. cbn [mbind result_bind].
    eexists. split; [done|]. split.
    + etrans; [apply nunique_le|]. by rewrite length_column.
    + by apply sublist_length.
  - cbn [mbind result_bind]. eexists. split; [done|].
    split; [lia|by apply sublist_length].
Qed.

Lemma overview_consistent_witness :
  apply_filters clean_sample (mkSpec 2020 2020 [Str "Lancet"])
  = Ok (mkFrame (columns clean_sample)
          (filter (passes (mkSpec 2020 2020 [Str "Lancet"]))
             (rows clean_sample)))
  ∧ ∃ unique_journals,
      overview clean_sample
        (mkFrame (columns clean_sample)
           (filter (passes (mkSpec 2020 2020 [Str "Lancet"]))
              (rows clean_sample)))
      = Ok (length (rows clean_sample),
            length (filter (passes (mkSpec 2020 2020 [Str "Lancet"]))
                      (rows clean_sample)),
            unique_journals)
      ∧ (unique_journals
         ≤ length (filter (passes (mkSpec 2020 2020 [Str "Lancet"]))
                     (rows clean_sample))
         ≤ length (rows clean_sample))%nat.
Proof.
  assert (apply_filters clean_sample (mkSpec 2020 2020 [Str "Lancet"])
          = Ok (mkFrame (columns clean_sample)
                  (filter (passes (mkSpec 2020 2020 [Str "Lancet"]))
                     (rows clean_sample)))) as H
    by (vm_compute; reflexivity).
  split; [exact H|].
  exact (proj2 (proj2 (overview_consistent _ _ _ H))).
Defined.

Lemma cols_to_show_in df c : c ∈ cols_to_show df → c ∈ columns df.
Proof.
  unfold cols_to_show. case_decide as Hall.
  - intros Hc. rewrite Forall_forall in Hall. by apply Hall.
  - intros Hc. eapply elem_of_sublist; [done|apply sublist_take].
Qed.

Lemma getitem_cols_ok df cs :
  (∀ c, c ∈ cs → c ∈ columns df) →
  getitem_cols df cs
  = Ok (mkFrame cs (map (λ r : Row, filter (λ kv, kv.1 ∈ cs) r) (rows df))).
Proof.
  intros Hin. unfold getitem_cols.
  assert (filter (λ c, c ∉ columns df) cs = []) as ->; [|done].
  induction cs as [|c cs IH]; [done|].
  rewrite filter_cons_False by (intros Hc; apply Hc, Hin; constructor).
  apply IH. intros c' Hc'. apply Hin. by constructor.
Qed.

(** X11. The data preview and the download never raise, on any frame:
    both show the columns title, authors, journal, year when the frame
    has all four and its first five columns otherwise, always columns
    of the frame; the download holds every filtered record cut down to
    those columns, the preview the first 200 of them. *)
Theorem preview_and_download df :
  ∃ shown download,
    data_preview df = Ok shown
    ∧ download_frame df = Ok download
    ∧ columns download = cols_to_show df
    ∧ columns shown = cols_to_show df
    ∧ (∀ c, c ∈ cols_to_show df → c ∈ columns df)
    ∧ (length (cols_to_show df) ≤ 5)%nat
    ∧ length (rows download) = length (rows df)
    ∧ rows shown = take 200 (rows download)
    ∧ Forall2
        (λ (r r' : Row),
           ∀ c v, r' !! c = Some v ↔ c ∈ cols_to_show df ∧ r !! c = Some v)
        (rows df) (rows download).
Proof.
  unfold data_preview, download_frame.
  rewrite getitem_cols_ok by apply cols_to_show_in.
  cbn [mbind result_bind]. eexists _, _. split_and!; try done.
  - apply cols_to_show_in.
  - unfold cols_to_show. case_decide; [simpl; lia|].
    rewrite length_take. lia.
  - simpl. by rewrite length_map.
  - simpl. apply Forall2_fmap_r, Forall_Forall2_diag, Forall_true.
    intros r c v. rewrite map_lookup_filter_Some. simpl. tauto.
Qed.

(** X12. Widening the year range of a filter, the journals left as
    they are, never loses a record: on a cleaned frame the narrower
    view is a sub-sequence of the wider one. *)
Theorem wider_range_keeps_more parse raw df f g :
  load_data parse raw = Ok df →
  journal_set f = journal_set g →
  year_min g ≤ year_min f → year_max f ≤ year_max g →
  "journal" ∈ columns df ∨ journal_set f = [] →
  ∃ vf vg,
    apply_filters df f = Ok vf ∧ apply_filters df g = Ok vg
    ∧ rows vf `sublist_of` rows vg.
Proof.
  intros Hload Hj Hlo Hhi Hcol.
  pose proof (load_data_has_year _ _ _ Hload) as Hy.
  apply load_data_inv in Hload as (_ & _ & Hok & _).
  rewrite !apply_filters_canonical by done.
  rewrite !decide_True by (rewrite <- ?Hj; tauto).
  eexists _, _. split_and!; [done..|]. simpl.
  assert (∀ r, passes f r → passes g r) as Himp.
  { intros r. unfold passes, year_in_range, journal_selected. rewrite Hj.
    destruct (r !! "year") as [[| |y|]|]; try tauto. intros [? ?].
    split; [lia|done]. }
  clear -Himp. induction (rows df) as [|r l IH]; [done|].
  rewrite !filter_cons. destruct (decide (passes f r)) as [Hf|Hf].
  - rewrite decide_True by auto. by apply sublist_skip.
  - case_decide; [by apply sublist_cons|done].
Qed.

Lemma wider_range_keeps_more_witness :
  load_data iso_date raw_sample = Ok clean_sample
  ∧ ∃ vf vg,
      apply_filters clean_sample (mkSpec 2020 2020 []) = Ok vf
      ∧ apply_filters clean_sample (mkSpec 2019 2021 []) = Ok vg
      ∧ rows vf `sublist_of` rows vg.
Proof.
  assert (load_data iso_date raw_sample = Ok clean_sample) as H
    by (vm_compute; reflexivity).
  split; [exact H|].
  apply (wider_range_keeps_more iso_date raw_sample clean_sample
           (mkSpec 2020 2020 []) (mkSpec 2019 2021 []) H);
    [done|simpl; lia|simpl; lia|by right].
Defined.

(** ** The four sections of the explorer *)

Lemma has_values_eq df c :
  has_values df c
  = Ok (bool_decide (c ∈ columns df) && notna_any (column df c)).
Proof.
  unfold has_values. case_decide.
  - rewrite getitem_ok by done. by rewrite bool_decide_true.
  - by rewrite bool_decide_false.
Qed.

Lemma andb_decide_elem (c : string) (cs : list string) (b : bool) :
  bool_decide (c ∈ cs) && b = true → c ∈ cs.
Proof. intros [H _]%andb_prop. by apply bool_decide_eq_true_1 in H. Qed.

(** A plot behind its guard always yields a widget. *)
Lemma guarded_block {A} df c (k : result A) (b : bool) (w : A → widget) msg :
  (c ∈ columns df → ∃ a, k = Ok a) →
  ∃ v, (if bool_decide (c ∈ columns df) && b
        then a ← k; Ok (w a) else Ok (Info msg)) = Ok v.
Proof.
  intros Hk. destruct (bool_decide _ && b) eqn:Hg; [|eauto].
  apply andb_decide_elem in Hg. destruct (Hk Hg) as [a ->].
  cbn [mbind result_bind]. eauto.
Qed.

(** The explorer's sections: four widgets, or the [ValueError] of a
    cloud without words. *)
Lemma explorer_views_cases wc_words srt df top_n :
  "title" ∈ columns df →
  match explorer_views wc_words srt df top_n with
  | Ok views =>
      length views = 4%nat
      ∧ (py_strip (joined_lower (column df "title")) = EmptyString
         ∨ wc_words (joined_lower (column df "title")) ≠ [])
  | Raise e =>
      e = ValueError
      ∧ py_strip (joined_lower (column df "title")) ≠ EmptyString
      ∧ wc_words (joined_lower (column df "title")) = []
  end.
Proof.
  intros Ht. unfold explorer_views. rewrite !has_values_eq.
  cbn [mbind result_bind].
  destruct (guarded_block df "year" (counts_by_year srt df)
              (notna_any (column df "year"))
              (λ yc, Pyplot (LinePlot yc))
              "No valid 'year' values available for plotting.") as [v1 H1].
  { intros Hc. unfold counts_by_year. rewrite getitem_ok by done.
    cbn [mbind result_bind]. eauto. }
  destruct (guarded_block df "journal" (top_journals srt df top_n)
              (notna_any (column df "journal"))
              (λ top, Pyplot (BarPlot top))
              "No journal information available to display.") as [v2 H2].
  { intros Hc. unfold top_journals. rewrite getitem_ok by done.
    cbn [mbind result_bind]. eauto. }
  destruct (guarded_block df "source_x" (top_sources srt df 10)
              (notna_any (column df "source_x"))
              (λ sc, Pyplot (PiePlot sc))
              "No 'source_x' column available in this dataset sample.")
    as [v4 H4].
  { intros Hc. unfold top_sources. rewrite getitem_ok by done.
    cbn [mbind result_bind]. eauto. }
  cbn beta in H1, H2, H4. rewrite H1. cbn [mbind result_bind].
  rewrite H2. cbn [mbind result_bind].
  unfold all_titles. rewrite getitem_ok by done. cbn [mbind result_bind].
  destruct (decide (0 < String.length
                          (py_strip (joined_lower (column df "title"))))%nat)
    as [Hblank|Hblank].
  - rewrite (bool_decide_eq_true_2 _ Hblank). unfold wordcloud_generate.
    destruct (wc_words (joined_lower (column df "title"))) as [|wd wds] eqn:Hwc;
      cbn [mbind result_bind].
    + split; [done|]. split; [|done].
      intros Hs. rewrite Hs in Hblank. simpl in Hblank. lia.
    + rewrite H4. cbn [mbind result_bind]. split; [done|by right].
  - rewrite (bool_decide_eq_false_2 _ Hblank).
    cbn [mbind result_bind]. rewrite H4. cbn [mbind result_bind].
    split; [done|]. left.
    destruct (py_strip (joined_lower (column df "title")));
      [done|simpl in Hblank; lia].
Qed.

(** X13. On a frame with a title column the explorer either shows its
    four sections or stops with the [ValueError] of the word cloud, and
    it stops exactly when the titles are not blank but hold no word the
    cloud accepts (only stop words, say): the guard before the cloud
    tests for blank text, not for words. *)
Theorem explorer_views_outcome wc_words srt df top_n :
  "title" ∈ columns df →
  match explorer_views wc_words srt df top_n with
  | Ok views =>
      length views = 4%nat
      ∧ (py_strip (joined_lower (column df "title")) = EmptyString
         ∨ wc_words (joined_lower (column df "title")) ≠ [])
  | Raise e =>
      e = ValueError
      ∧ py_strip (joined_lower (column df "title")) ≠ EmptyString
      ∧ wc_words (joined_lower (column df "title")) = []
  end.
Proof. apply explorer_views_cases. Qed.

(** A title that is white space only, a no-break space here, counts as
    blank: the cloud is not attempted. *)
Example explorer_blank_title :
  explorer_views plain_words stable_ties blank_title 10
  = Ok [Info "No valid 'year' values available for plotting.";
        Info "No journal information available to display.";
        Info "No title text available to generate a word cloud.";
        Info "No 'source_x' column available in this dataset sample."].
Proof. vm_compute. reflexivity. Qed.

Lemma explorer_views_outcome_witness :
  "title" ∈ columns (stop_word_titles)
  ∧ explorer_views plain_words stable_ties (stop_word_titles) 10 = Raise ValueError.
Proof.
  assert ("title" ∈ columns (stop_word_titles)) as Ht
    by (simpl; repeat constructor).
  split; [exact Ht|].
  pose proof (explorer_views_outcome plain_words stable_ties (stop_word_titles)
                10 Ht) as H.
  destruct (explorer_views plain_words stable_ties (stop_word_titles) 10)
    as [views|e] eqn:E.
  - exfalso. vm_compute in E. discriminate E.
  - destruct H as (-> & _). reflexivity.
Defined.

(** ** The batch run, start to end *)

(** What cleaning leaves for the report to index. *)
Lemma week8_clean_report_columns parse raw df :
  week8_clean parse raw = Ok df →
  "year" ∈ columns df ∧ "title" ∈ columns df
  ∧ (∀ c, c ∉ drop_cols → (c ∈ columns df ↔ c ∈ columns raw ∨ c = "year"
                                            ∨ c = "abstract_word_count")).
Proof.
  intros H. pose proof (week8_clean_unfold _ _ _ H) as (Ht & _ & _ & _).
  apply week8_clean_inv in H as (_ & Hcols & _).
  assert ("title" ∉ drop_cols) by (apply not_dropped; set_solver).
  split_and!.
  - apply Hcols. auto.
  - apply Hcols. auto.
  - intros c Hc. rewrite Hcols. naive_solver.
Qed.



(** X15. Week8.py does not create [plots/]: when the directory is
    missing, a sample that cleans well makes the report stop with
    [FileNotFoundError] at the first [savefig], nothing saved. *)
Theorem batch_needs_plots_dir parse wc_words srt raw df w :
  week8_clean parse raw = Ok df →
  plots_dir w = false →
  week8_report parse wc_words srt raw w = (Raise FileNotFoundError, w).
Proof.
  intros Hclean Hp.
  destruct (week8_clean_report_columns _ _ _ Hclean) as (Hyear & _ & _).
  unfold week8_report, week8_analysis.
  rewrite bind_run, lift_run, Hclean.
  rewrite bind_run, lift_run. unfold counts_by_year.
  rewrite getitem_ok by done. cbn [mbind result_bind].
  rewrite bind_run. unfold savefig. by rewrite Hp.
Qed.

Lemma batch_needs_plots_dir_witness :
  ∃ df,
    week8_clean iso_date raw_sample = Ok df
    ∧ plots_dir (mkWorld ∅ false []) = false
    ∧ week8_report iso_date plain_words stable_ties raw_sample (mkWorld ∅ false [])
      = (Raise FileNotFoundError, mkWorld ∅ false []).
Proof.
  eexists.
  assert (week8_clean iso_date raw_sample = Ok _) as Hclean
    by (vm_compute; reflexivity).
  split; [exact Hclean|]. split; [reflexivity|].
  exact (batch_needs_plots_dir iso_date plain_words stable_ties raw_sample _
           (mkWorld ∅ false []) Hclean eq_refl).
Defined.

(** ** Sampler and entry point *)

(** X16. When the source is there and nothing fails, step 1 ends
    normally and the sample file is the CSV text of the first 5000
    records of the source under all its columns, whatever the file held
    before; no other file is touched.  Running the step again on the
    result changes nothing. *)
Theorem make_sample_overwrites_and_is_idempotent read_text to_text w text df :
  files w !! source_path = Some text →
  read_text text = Ok df →
  ∃ w1,
    make_sample read_text to_text NoFault w = (Ok (), w1)
    ∧ files w1 !! sample_path = Some (to_text (first_chunk 5000 df))
    ∧ columns (first_chunk 5000 df) = columns df
    ∧ rows (first_chunk 5000 df) = take 5000 (rows df)
    ∧ (length (rows (first_chunk 5000 df)) ≤ 5000)%nat
    ∧ (∀ p, p ≠ sample_path → files w1 !! p = files w !! p)
    ∧ make_sample read_text to_text NoFault w1 = (Ok (), w1).
Proof.
  intros Hsrc Hread.
  exists (set_file sample_path (to_text (first_chunk 5000 df)) w).
  rewrite (make_sample_writes_first_chunk _ _ _ _ _ Hsrc Hread).
  split_and!; [done|apply lookup_insert_eq|done|done| | |].
  - simpl. rewrite length_take. lia.
  - intros p Hp. simpl. by rewrite lookup_insert_ne.
  - rewrite (make_sample_writes_first_chunk _ _ _ text df).
    + unfold set_file. simpl. by rewrite insert_insert_eq.
    + simpl. by rewrite lookup_insert_ne.
    + done.
Qed.

Lemma make_sample_overwrites_and_is_idempotent_witness :
  files sampled_world !! source_path = Some ["title,abstract"; "T1,A1"]
  ∧ plain_read_csv ["title,abstract"; "T1,A1"]
    = Ok (mkFrame ["title"; "abstract"]
            [ {[ "title" := Str "T1"; "abstract" := Str "A1" ]} ])
  ∧ ∃ w1,
      make_sample plain_read_csv plain_to_csv NoFault sampled_world = (Ok (), w1)
      ∧ files w1 !! sample_path = Some ["title,abstract"; "T1,A1"]
      ∧ make_sample plain_read_csv plain_to_csv NoFault w1 = (Ok (), w1).
Proof.
  assert (files sampled_world !! source_path
          = Some ["title,abstract"; "T1,A1"]) as Hs by (vm_compute; reflexivity).
  assert (plain_read_csv ["title,abstract"; "T1,A1"]
          = Ok (mkFrame ["title"; "abstract"]
                  [ {[ "title" := Str "T1"; "abstract" := Str "A1" ]} ]))
    as Hr by (vm_compute; reflexivity).
  split; [exact Hs|]. split; [exact Hr|].
  destruct (make_sample_overwrites_and_is_idempotent plain_read_csv
              plain_to_csv sampled_world _ _ Hs Hr)
    as (w1 & Hrun & Hfile & _ & _ & _ & _ & Hagain).
  exists w1. split; [exact Hrun|]. split; [|exact Hagain].
  rewrite Hfile. vm_compute. reflexivity.
Defined.

(** X17. Step 1 leaves everything as it was when there is no source to
    trim, and when the source is there but cannot be read it exits with
    every file, an older sample included, unchanged. *)
Theorem make_sample_leaves_files_alone read_text to_text fault w :
  match files w !! source_path with
  | None => make_sample read_text to_text fault w = (Ok (), w)
  | Some text =>
      ∀ e, read_text text = Raise e →
           make_sample read_text to_text fault w = (Raise SystemExit, w)
  end.
Proof.
  unfold make_sample. rewrite bind_run, path_exists_run.
  destruct (files w !! source_path) as [text|] eqn:Hsrc.
  - intros e He. rewrite bool_decide_true by eauto.
    unfold try_except. rewrite bind_run, bind_run.
    unfold read_csv. rewrite Hsrc, He. by destruct e.
  - by rewrite bool_decide_false by (by intros [? ?]).
Qed.

Lemma make_sample_leaves_files_alone_witness :
  plain_read_csv [] = Raise ValueError
  ∧ make_sample plain_read_csv plain_to_csv NoFault broken_source_world
    = (Raise SystemExit, broken_source_world).
Proof.
  split; [reflexivity|].
  exact (make_sample_leaves_files_alone plain_read_csv plain_to_csv NoFault
           broken_source_world ValueError eq_refl).
Defined.

(** X18. With a source that trims without fault, the report of
    Week8.py is computed from the sample just written, read back from
    its text, and not from whatever sample was there before. *)
Theorem week8_main_uses_fresh_sample
    parse wc_words srt read_text to_text w text df raw :
  files w !! source_path = Some text →
  read_text text = Ok df →
  read_text (to_text (first_chunk 5000 df)) = Ok raw →
  week8_main parse wc_words read_text to_text NoFault srt w
  = week8_report parse wc_words srt raw
      (set_file sample_path (to_text (first_chunk 5000 df)) w).
Proof.
  intros Hsrc Hread Hback. unfold week8_main.
  rewrite bind_run, (make_sample_writes_first_chunk _ _ _ _ _ Hsrc Hread).
  unfold load_sample. rewrite bind_run, bind_run, path_exists_run.
  assert (files (set_file sample_path (to_text (first_chunk 5000 df)) w)
            !! sample_path = Some (to_text (first_chunk 5000 df))) as Hnew
    by apply lookup_insert_eq.
  rewrite Hnew, bool_decide_true by eauto.
  unfold try_except, read_csv. by rewrite Hnew, Hback.
Qed.

Lemma week8_main_uses_fresh_sample_witness :
  files sampled_world !! source_path = Some ["title,abstract"; "T1,A1"]
  ∧ week8_main iso_date plain_words plain_read_csv plain_to_csv NoFault stable_ties
      sampled_world
    = week8_report iso_date plain_words stable_ties
        (mkFrame ["title"; "abstract"]
           [ {[ "title" := Str "T1"; "abstract" := Str "A1" ]} ])
        (set_file sample_path
           (plain_to_csv
              (first_chunk 5000
                 (mkFrame ["title"; "abstract"]
                    [ {[ "title" := Str "T1"; "abstract" := Str "A1" ]} ])))
           sampled_world).
Proof.
  assert (files sampled_world !! source_path
          = Some ["title,abstract"; "T1,A1"]) as Hs by (vm_compute; reflexivity).
  split; [exact Hs|].
  apply (week8_main_uses_fresh_sample iso_date plain_words stable_ties plain_read_csv
           plain_to_csv sampled_world _ _ _ Hs);
    vm_compute; reflexivity.
Defined.

(** X19. Without a source, Week8.py exits at once and writes nothing
    when there is no sample either or when the sample cannot be read;
    with a readable sample it goes on to the report on that sample. *)
Theorem week8_main_without_source parse wc_words srt read_text to_text fault w :
  files w !! source_path = None →
  match files w !! sample_path with
  | None =>
      week8_main parse wc_words read_text to_text fault srt w = (Raise SystemExit, w)
  | Some text =>
      match read_text text with
      | Ok raw =>
          week8_main parse wc_words read_text to_text fault srt w
          = week8_report parse wc_words srt raw w
      | Raise _ =>
          week8_main parse wc_words read_text to_text fault srt w
          = (Raise SystemExit, w)
      end
  end.
Proof.
  intros Hsrc. unfold week8_main, make_sample, load_sample.
  rewrite bind_run, bind_run, path_exists_run, Hsrc.
  rewrite bool_decide_false by (by intros [? ?]). simpl.
  rewrite bind_run, bind_run, path_exists_run.
  destruct (files w !! sample_path) as [text|] eqn:Hsample.
  - rewrite bool_decide_true by eauto.
    unfold try_except, read_csv. rewrite Hsample.
    by destruct (read_text text) as [raw|[]].
  - by rewrite bool_decide_false by (by intros [? ?]).
Qed.

Lemma week8_main_without_source_witness :
  files bare_world !! source_path = None
  ∧ week8_main iso_date plain_words plain_read_csv plain_to_csv NoFault stable_ties
      bare_world
    = (Raise SystemExit, bare_world).
Proof.
  assert (files bare_world !! source_path = None) as Hs by reflexivity.
  split; [exact Hs|].
  exact (week8_main_without_source iso_date plain_words stable_ties plain_read_csv
           plain_to_csv NoFault bare_world Hs).
Defined.

Lemma load_data_has_title parse raw df :
  load_data parse raw = Ok df → "title" ∈ columns df.
Proof.
  intros H. pose proof (load_data_unfold _ _ _ H) as (Ht & _ & _).
  apply load_data_inv in H as (_ & Hc & _). apply Hc. by left.
Qed.

(** X20. A rerun of the explorer on the loaded sample, with any year
    range and any choice among the journals it offers, can only end in
    two ways: it shows the records the filter keeps and its four
    sections, or it stops with the [ValueError] of the word cloud.  No
    [KeyError] or [TypeError] comes out of the filter or of the plots. *)
Theorem explorer_rerun_outcome parse wc_words srt raw df f top_n :
  load_data parse raw = Ok df →
  "journal" ∈ columns df ∨ journal_set f = [] →
  match explorer wc_words srt df f top_n with
  | Ok (view, widgets) =>
      columns view = columns df
      ∧ rows view = filter (passes f) (rows df)
      ∧ length widgets = 4%nat
  | Raise e => e = ValueError
  end.
Proof.
  intros Hload Hj.
  pose proof (load_data_has_year _ _ _ Hload) as Hy.
  pose proof (load_data_has_title _ _ _ Hload) as Ht.
  apply load_data_inv in Hload as (_ & _ & Hok & _).
  unfold explorer. rewrite apply_filters_canonical by done.
  rewrite decide_True by tauto. cbn [mbind result_bind].
  pose proof (explorer_views_cases wc_words srt
                (mkFrame (columns df) (filter (passes f) (rows df)))
                top_n Ht) as Hviews.
  destruct (explorer_views wc_words srt _ top_n) as [widgets|e];
    cbn [mbind result_bind]; [|tauto].
  split_and!; [done..|tauto].
Qed.

Lemma explorer_rerun_outcome_witness :
  load_data iso_date raw_sample = Ok clean_sample
  ∧ ("journal" ∈ columns clean_sample
     ∨ journal_set (mkSpec 2020 2020 [Str "Lancet"]) = [])
  ∧ match explorer plain_words stable_ties clean_sample
            (mkSpec 2020 2020 [Str "Lancet"]) 10 with
    | Ok (view, widgets) =>
        columns view = columns clean_sample
        ∧ rows view
          = filter (passes (mkSpec 2020 2020 [Str "Lancet"]))
              (rows clean_sample)
        ∧ length widgets = 4%nat
    | Raise e => e = ValueError
    end.
Proof.
  assert (load_data iso_date raw_sample = Ok clean_sample) as H
    by (vm_compute; reflexivity).
  assert ("journal" ∈ columns clean_sample
          ∨ journal_set (mkSpec 2020 2020 [Str "Lancet"]) = []) as Hj
    by (left; vm_compute; repeat constructor).
  split; [exact H|]. split; [exact Hj|].
  exact (explorer_rerun_outcome iso_date plain_words stable_ties raw_sample clean_sample
           (mkSpec 2020 2020 [Str "Lancet"]) 10 H Hj).
Defined.

(** X21. On a filtered view without records the explorer shows the
    placeholder of each of its four sections and calls neither a plot
    nor the word cloud. *)
Theorem explorer_placeholders_on_empty_view wc_words srt df top_n :
  "title" ∈ columns df → rows df = [] →
  explorer_views wc_words srt df top_n
  = Ok [Info "No valid 'year' values available for plotting.";
        Info "No journal information available to display.";
        Info "No title text available to generate a word cloud.";
        Info "No 'source_x' column available in this dataset sample."].
Proof. apply explorer_views_empty. Qed.

Lemma explorer_placeholders_on_empty_view_witness :
  "title" ∈ columns empty_sample ∧ rows empty_sample = []
  ∧ explorer_views plain_words stable_ties empty_sample 10
    = Ok [Info "No valid 'year' values available for plotting.";
          Info "No journal information available to display.";
          Info "No title text available to generate a word cloud.";
          Info "No 'source_x' column available in this dataset sample."].
Proof.
  assert ("title" ∈ columns empty_sample) as Ht by (simpl; repeat constructor).
  split; [exact Ht|]. split; [reflexivity|].
  exact (explorer_placeholders_on_empty_view plain_words stable_ties empty_sample 10
           Ht eq_refl).
Defined.

(** X22. The sources both scripts plot are ranked like the journals:
    each non-null source once with its number of records, the most
    frequent first (equal counts in the order the sort of pandas
    leaves them in, whatever it is), cut to the first [n]; without a
    source_x column the call is a [KeyError]. *)
Theorem top_sources_ranking srt df n :
  if decide ("source_x" ∈ columns df) then
    ∃ full,
      top_sources srt df n = Ok (take n full)
      ∧ NoDup full.*1
      ∧ (∀ k c, (k, c) ∈ full ↔
                k ≠ NA ∧ k ∈ column df "source_x"
                ∧ c = count k (column df "source_x"))
      ∧ StronglySorted count_ge full
  else top_sources srt df n = Raise (KeyError "source_x").
Proof.
  unfold top_sources. case_decide as Hs.
  - exists (value_counts srt (column df "source_x")).
    rewrite getitem_ok by done. cbn [mbind result_bind].
    destruct (value_counts_spec srt (column df "source_x")) as (? & ? & ?).
    by split_and!.
  - by rewrite getitem_missing by done.
Qed.
